(** * pyion [_mem.c]: the SDR and PSM usage dumps

    A shallow embedding of [pyion_sdr_dump] and [pyion_psm_dump]
    (src/pyion/_mem.c) together with the properties of the natural-language
    specification that concern them.

    - C integers are modelled as [Z]; [size_t] and [unsigned long] arithmetic
      wraps modulo [2 ^ wbits].
    - Python dictionaries are insertion-ordered association lists, updated
      with [PyDict_SetItem].
    - The calls into ION and into the Python exception state are threaded
      through a small state monad whose state records the pending exception
      and the log of collaborator calls. *)

From Stdlib Require Import ZArith List Lia Bool Ascii String.
From Stdlib Require Import DecimalString Sorted.
Import ListNotations.

Local Open Scope Z_scope.

(** ** Python dictionaries *)

Module Dict.

Section WithKey.
Context {K V : Type}.
Variable eqb : K -> K -> bool.

(** [PyDict_SetItem]: overwrite the value of an existing key in place,
    otherwise append a new entry. *)
Fixpoint set_item (d : list (K * V)) (k : K) (v : V) : list (K * V) :=
  match d with
  | [] => [(k, v)]
  | (k', v') :: d' =>
      if eqb k' k then (k', v) :: d' else (k', v') :: set_item d' k v
  end.

Fixpoint get_item (d : list (K * V)) (k : K) : option V :=
  match d with
  | [] => None
  | (k', v') :: d' => if eqb k' k then Some v' else get_item d' k
  end.

Definition keys (d : list (K * V)) : list K := map fst d.
Definition values (d : list (K * V)) : list V := map snd d.

(** A dictionary built from the key/value pairs of a [Py_BuildValue]
    dictionary format: the pairs are stored one after the other. *)
Definition build (items : list (K * V)) : list (K * V) :=
  fold_left (fun d kv => set_item d (fst kv) (snd kv)) items [].
End WithKey.

End Dict.

Definition PyDictZ := list (Z * Z).
Definition PyDictS := list (string * Z).

Definition PyDict_New : PyDictZ := [].
Definition PyDict_SetItem (d : PyDictZ) (k v : Z) : PyDictZ :=
  Dict.set_item Z.eqb d k v.
Definition PyDict_GetItem (d : PyDictZ) (k : Z) : option Z :=
  Dict.get_item Z.eqb d k.
Definition PyDict_GetItemString (d : PyDictS) (k : string) : option Z :=
  Dict.get_item String.eqb d k.

(** ** ION's usage summaries (the fields [_mem.c] reads) *)

Record SdrUsageSummary := {
  sdr_smallPoolFree : Z;
  sdr_smallPoolAllocated : Z;
  sdr_smallPoolSize : Z;
  sdr_smallPoolFreeBlockCount : list Z;
  sdr_largePoolFree : Z;
  sdr_largePoolAllocated : Z;
  sdr_largePoolSize : Z;
  sdr_largePoolFreeBlockCount : list Z;
  sdr_heapSize : Z;
  sdr_unusedSize : Z
}.

Record PsmUsageSummary := {
  psm_smallPoolFree : Z;
  psm_smallPoolAllocated : Z;
  psm_smallPoolSize : Z;
  psm_smallPoolFreeBlockCount : list Z;
  psm_largePoolFree : Z;
  psm_largePoolAllocated : Z;
  psm_largePoolSize : Z;
  psm_largePoolFreeBlockCount : list Z;
  psm_partitionSize : Z;
  psm_unusedSize : Z
}.

(** ** Python values crossing the module boundary *)

Inductive PyObject :=
| PyStr (s : string)
| PyLong (n : Z)
| PyNone.

(** What the wrapped functions hand back: [NULL], or the 3-tuple
    [(aggregate dict, small-pool dict, large-pool dict)]. *)
Inductive PyRet :=
| PyNULL
| PyTuple3 (agg : PyDictS) (sp_blocks lp_blocks : PyDictZ).

Definition ret_agg (r : PyRet) : PyDictS :=
  match r with PyTuple3 agg _ _ => agg | PyNULL => [] end.
Definition ret_sp (r : PyRet) : PyDictZ :=
  match r with PyTuple3 _ sp _ => sp | PyNULL => [] end.
Definition ret_lp (r : PyRet) : PyDictZ :=
  match r with PyTuple3 _ _ lp => lp | PyNULL => [] end.

Inductive PyExcClass :=
| PyExc_MemoryError
| PyExc_TypeError
| PyExc_ValueError
| PyExc_OverflowError
| TransactionError.

(** ** ION as seen from [_mem.c] *)

Definition Sdr := nat.
Definition PsmPartition := nat.

(** The answers of the ION library in a given state of the node: this is
    the arena state the readers observe. *)
Record Ion := {
  ion_sdr_start_using : string -> option Sdr;      (* [None] is NULL *)
  ion_sdr_begin_xn : Sdr -> bool;                  (* transaction granted *)
  ion_sdr_usage : Sdr -> SdrUsageSummary;
  ion_sdr_end_xn : Sdr -> Z;                       (* the int it returns *)
  ion_sm_ipc_init : Z;
  ion_memmgr_open : Z -> Z -> string -> Z * PsmPartition;
  ion_psm_usage : PsmPartition -> PsmUsageSummary
}.

Inductive event :=
| Ev_sdr_initialize
| Ev_sdr_start_using (name : string) (r : option Sdr)
| Ev_sdr_begin_xn (sdr : Sdr) (granted : bool)
| Ev_sdr_usage (sdr : Sdr)
| Ev_sdr_end_xn (sdr : Sdr) (r : Z)
| Ev_sdr_stop_using (sdr : Sdr)
| Ev_sm_ipc_init (r : Z)
| Ev_memmgr_open (key size : Z) (name : string) (r : Z)
| Ev_psm_usage (psm : PsmPartition).

Record World := {
  ion : Ion;
  pyerr : option (PyExcClass * string);  (* the pending Python exception *)
  log : list event                       (* collaborator calls, oldest first *)
}.

(** ** The state monad of a call *)

Definition M (A : Type) : Type := World -> A * World.

Definition ret {A} (a : A) : M A := fun w => (a, w).
Definition bind {A B} (m : M A) (k : A -> M B) : M B :=
  fun w => let (a, w') := m w in k a w'.

Declare Scope call_scope.
Delimit Scope call_scope with call.
Notation "x <- m ;; k" := (bind m (fun x => k))
  (at level 61, m at next level, right associativity) : call_scope.
Notation "m ;; k" := (bind m (fun _ => k))
  (at level 61, right associativity) : call_scope.
Local Open Scope call_scope.

Definition ask : M Ion := fun w => (ion w, w).
Definition emit (e : event) : M unit :=
  fun w => (tt, {| ion := ion w; pyerr := pyerr w; log := log w ++ [e] |}).
Definition PyErr_SetString (c : PyExcClass) (msg : string) : M unit :=
  fun w => (tt, {| ion := ion w; pyerr := Some (c, msg); log := log w |}).

(** ** Helpers of [_utils.c] and of CPython *)

Inductive fmt_arg :=
| FmtStr (s : string)
| FmtInt (n : Z).

Definition decimal (n : Z) : string := NilZero.string_of_int (Z.to_int n).

(** The two [printf] directives [_mem.c] uses: [%s] and [%i]. *)
Fixpoint format (fmt : string) (args : list fmt_arg) : string :=
  match fmt with
  | EmptyString => EmptyString
  | String c rest =>
      if Ascii.eqb c "%" then
        match rest, args with
        | String d rest', FmtStr s :: args' =>
            if Ascii.eqb d "s" then s ++ format rest' args'
            else String c (format rest args)
        | String d rest', FmtInt n :: args' =>
            if Ascii.eqb d "i" then decimal n ++ format rest' args'
            else String c (format rest args)
        | _, _ => String c (format rest args)
        end
      else String c (format rest args)
  end%string.

(** Modelled from the spec: [pyion_SetExc] is defined in [_utils.c], which
    is not among the sources.  The Error Mapper of the spec turns a failure
    signal into a typed error "carrying a human-readable message with the
    offending identity interpolated": the format is expanded with its
    arguments and becomes the pending exception. *)
Definition pyion_SetExc (c : PyExcClass) (fmt : string) (args : list fmt_arg)
  : M unit :=
  PyErr_SetString c (format fmt args).

Fixpoint has_nul (s : string) : bool :=
  match s with
  | EmptyString => false
  | String c rest => Ascii.eqb c zero || has_nul rest
  end.

Definition INT_MIN : Z := - 2 ^ 31.
Definition INT_MAX : Z := 2 ^ 31 - 1.
Definition LLONG_MIN : Z := - 2 ^ 63.
Definition LLONG_MAX : Z := 2 ^ 63 - 1.

(** Conversion of one argument by the format units ["s"], ["i"] and ["L"]
    of [PyArg_ParseTuple]; CPython's message texts are not modelled. *)
Definition conv_s (o : PyObject) : PyExcClass + string :=
  match o with
  | PyStr s => if has_nul s then inl PyExc_ValueError else inr s
  | _ => inl PyExc_TypeError
  end.

Definition conv_int (lo hi : Z) (o : PyObject) : PyExcClass + Z :=
  match o with
  | PyLong n =>
      if (lo <=? n) && (n <=? hi) then inr n else inl PyExc_OverflowError
  | _ => inl PyExc_TypeError
  end.

(** The conversions done by [PyArg_ParseTuple(args, "s", &sdrName)] and by
    [PyArg_ParseTuple(args, "iLs", &memKey, &memSize, &partitionName)]. *)
Definition parse_tuple_s (args : list PyObject) : PyExcClass + string :=
  match args with
  | [a] => conv_s a
  | _ => inl PyExc_TypeError
  end.

Definition parse_tuple_iLs (args : list PyObject)
  : PyExcClass + (Z * Z * string) :=
  match args with
  | [a; b; c] =>
      match conv_int INT_MIN INT_MAX a with
      | inl e => inl e
      | inr memKey =>
          match conv_int LLONG_MIN LLONG_MAX b with
          | inl e => inl e
          | inr memSize =>
              match conv_s c with
              | inl e => inl e
              | inr partitionName => inr (memKey, memSize, partitionName)
              end
          end
      end
  | _ => inl PyExc_TypeError
  end.

(** On failure [PyArg_ParseTuple] leaves an exception pending and returns
    zero. *)
Definition PyArg_ParseTuple {A : Type} (parsed : PyExcClass + A)
  : M (option A) :=
  match parsed with
  | inr a => ret (Some a)
  | inl c => PyErr_SetString c EmptyString ;; ret None
  end.

Definition PyArg_ParseTuple_s (args : list PyObject) : M (option string) :=
  PyArg_ParseTuple (parse_tuple_s args).

Definition PyArg_ParseTuple_iLs (args : list PyObject)
  : M (option (Z * Z * string)) :=
  PyArg_ParseTuple (parse_tuple_iLs args).

(** ** Calls into ION *)

Definition sdr_initialize : M unit := emit Ev_sdr_initialize.

Definition sdr_start_using (name : string) : M (option Sdr) :=
  i <- ask ;;
  let r := ion_sdr_start_using i name in
  emit (Ev_sdr_start_using name r) ;; ret r.

Definition sdr_begin_xn (sdr : Sdr) : M bool :=
  i <- ask ;;
  let r := ion_sdr_begin_xn i sdr in
  emit (Ev_sdr_begin_xn sdr r) ;; ret r.

Definition sdr_usage (sdr : Sdr) : M SdrUsageSummary :=
  i <- ask ;;
  emit (Ev_sdr_usage sdr) ;; ret (ion_sdr_usage i sdr).

Definition sdr_end_xn (sdr : Sdr) : M Z :=
  i <- ask ;;
  let r := ion_sdr_end_xn i sdr in
  emit (Ev_sdr_end_xn sdr r) ;; ret r.

Definition sdr_stop_using (sdr : Sdr) : M unit := emit (Ev_sdr_stop_using sdr).

Definition sm_ipc_init : M Z :=
  i <- ask ;;
  let r := ion_sm_ipc_init i in
  emit (Ev_sm_ipc_init r) ;; ret r.

Definition memmgr_open (memKey memSize : Z) (partitionName : string)
  : M (Z * PsmPartition) :=
  i <- ask ;;
  let r := ion_memmgr_open i memKey memSize partitionName in
  emit (Ev_memmgr_open memKey memSize partitionName (fst r)) ;; ret r.

Definition psm_usage (psm : PsmPartition) : M PsmUsageSummary :=
  i <- ask ;;
  emit (Ev_psm_usage psm) ;; ret (ion_psm_usage i psm).

(** Modelled from the spec: [sdr_pybegin_xn] is defined in [_utils.c], which
    is not among the sources.  Per the spec it acquires the transaction on
    the handle and, "if transaction acquisition fails, fail[s] with
    [TransactionError]"; [_mem.c] tests its result for zero. *)
Definition sdr_pybegin_xn (sdr : Sdr) : M bool :=
  granted <- sdr_begin_xn sdr ;;
  if granted then ret true
  else pyion_SetExc TransactionError "Cannot start SDR transaction." [] ;;
       ret false.

(** ** The two dump functions *)

Definition for_loop {S : Type} (n : nat) (body : nat -> S -> S) (s : S) : S :=
  fold_left (fun st i => body i st) (seq 0 n) s.

Section Readers.

(** Width in bits of [size_t] and of [unsigned long] (they agree on the
    ILP32 and LP64 platforms ION is built for), and the constants of ION's
    [platform.h], which is not part of this repository. *)
Variable wbits : Z.
Variable WORD_SIZE : Z.
Variable SMALL_SIZES : nat.
Variable LARGE_ORDERS : nat.

Definition wrap (z : Z) : Z := z mod 2 ^ wbits.

Definition to_size_t (z : Z) : Z := wrap z.
Definition to_ulong (z : Z) : Z := wrap z.
Definition size_add (a b : Z) : Z := wrap (a + b).
Definition size_sub (a b : Z) : Z := wrap (a - b).
Definition size_mul (a b : Z) : Z := wrap (a * b).

(** Body of the loops at lines 124-129 and 212-217; [counts] is the
    [smallPoolFreeBlockCount] array of the summary at hand. *)
Definition small_pool_step (counts : list Z) (i : nat) (st : Z * PyDictZ)
  : Z * PyDictZ :=
  let (sp_blk_size, sp_blocks) := st in
  let sp_blk_size := size_add sp_blk_size (to_size_t WORD_SIZE) in
  let key := to_ulong sp_blk_size in
  let val := to_ulong (nth i counts 0) in
  (sp_blk_size, PyDict_SetItem sp_blocks key val).

(** Body of the loops at lines 132-137 and 220-225. *)
Definition large_pool_step (counts : list Z) (i : nat) (st : Z * PyDictZ)
  : Z * PyDictZ :=
  let (lp_blk_size, lp_blocks) := st in
  let lp_blk_size := size_mul lp_blk_size 2 in
  let key := to_ulong lp_blk_size in
  let val := to_ulong (nth i counts 0) in
  (lp_blk_size, PyDict_SetItem lp_blocks key val).

Definition pyion_sdr_dump (args : list PyObject) : M PyRet :=
  let sp_blocks := PyDict_New in
  let lp_blocks := PyDict_New in
  let sp_blk_size := to_size_t 0 in
  let lp_blk_size := to_size_t WORD_SIZE in
  parsed <- PyArg_ParseTuple_s args ;;
  match parsed with
  | None => ret PyNULL
  | Some sdrName =>
      sdr_initialize ;;
      sdr <- sdr_start_using sdrName ;;
      match sdr with
      | None =>
          pyion_SetExc PyExc_MemoryError
            "Could not attach to SDR with name '%s'." [FmtStr sdrName] ;;
          ret PyNULL
      | Some sdr =>
          began <- sdr_pybegin_xn sdr ;;
          if negb began then ret PyNULL else
          sdrUsage <- sdr_usage sdr ;;
          ended <- sdr_end_xn sdr ;;
          if ended =? 0 then ret PyNULL else
          let sp_avail := to_size_t (sdr_smallPoolFree sdrUsage) in
          let sp_used := to_size_t (sdr_smallPoolAllocated sdrUsage) in
          let sp_total := to_size_t (sdr_smallPoolSize sdrUsage) in
          let lp_avail := to_size_t (sdr_largePoolFree sdrUsage) in
          let lp_used := to_size_t (sdr_largePoolAllocated sdrUsage) in
          let lp_total := to_size_t (sdr_largePoolSize sdrUsage) in
          let hp_size := to_size_t (sdr_heapSize sdrUsage) in
          let hp_avail := to_size_t (sdr_unusedSize sdrUsage) in
          let hp_used :=
            size_sub hp_size (size_add (size_add sp_avail lp_avail) hp_avail) in
          let hp_max_u := size_sub hp_size hp_avail in
          let sp_blocks :=
            snd (for_loop SMALL_SIZES
                   (small_pool_step (sdr_smallPoolFreeBlockCount sdrUsage))
                   (sp_blk_size, sp_blocks)) in
          let lp_blocks :=
            snd (for_loop LARGE_ORDERS
                   (large_pool_step (sdr_largePoolFreeBlockCount sdrUsage))
                   (lp_blk_size, lp_blocks)) in
          sdr_stop_using sdr ;;
          ret (PyTuple3
                 (Dict.build String.eqb
                    [("small_pool_avail"%string, to_ulong sp_avail);
                     ("small_pool_used"%string, to_ulong sp_used);
                     ("small_pool_total"%string, to_ulong sp_total);
                     ("large_pool_avail"%string, to_ulong lp_avail);
                     ("large_pool_used"%string, to_ulong lp_used);
                     ("large_pool_total"%string, to_ulong lp_total);
                     ("heap_size"%string, to_ulong hp_size);
                     ("heap_avail"%string, to_ulong hp_avail);
                     ("heap_used"%string, to_ulong hp_used);
                     ("max_heap_used"%string, to_ulong hp_max_u)])
                 sp_blocks lp_blocks)
      end
  end.

Definition pyion_psm_dump (args : list PyObject) : M PyRet :=
  let sp_blocks := PyDict_New in
  let lp_blocks := PyDict_New in
  let sp_blk_size := to_size_t 0 in
  let lp_blk_size := to_size_t WORD_SIZE in
  parsed <- PyArg_ParseTuple_iLs args ;;
  match parsed with
  | None => ret PyNULL
  | Some (memKey, memSize, partitionName) =>
      rc <- sm_ipc_init ;;
      if rc <? 0 then
        pyion_SetExc PyExc_MemoryError "IPC initialization failed." [] ;;
        ret PyNULL
      else
      opened <- memmgr_open memKey memSize partitionName ;;
      let (rc, psm) := opened in
      if rc <? 0 then
        pyion_SetExc PyExc_MemoryError
          "Can't attach to PSM with key '%i'." [FmtInt memKey] ;;
        ret PyNULL
      else
      psmUsage <- psm_usage psm ;;
      let sp_avail := to_size_t (psm_smallPoolFree psmUsage) in
      let sp_used := to_size_t (psm_smallPoolAllocated psmUsage) in
      let sp_total := to_size_t (psm_smallPoolSize psmUsage) in
      let lp_avail := to_size_t (psm_largePoolFree psmUsage) in
      let lp_used := to_size_t (psm_largePoolAllocated psmUsage) in
      let lp_total := to_size_t (psm_largePoolSize psmUsage) in
      let wm_size := to_size_t (psm_partitionSize psmUsage) in
      let wm_avail := to_size_t (psm_unusedSize psmUsage) in
      let sp_blocks :=
        snd (for_loop SMALL_SIZES
               (small_pool_step (psm_smallPoolFreeBlockCount psmUsage))
               (sp_blk_size, sp_blocks)) in
      let lp_blocks :=
        snd (for_loop LARGE_ORDERS
               (large_pool_step (psm_largePoolFreeBlockCount psmUsage))
               (lp_blk_size, lp_blocks)) in
      ret (PyTuple3
             (Dict.build String.eqb
                [("small_pool_avail"%string, to_ulong sp_avail);
                 ("small_pool_used"%string, to_ulong sp_used);
                 ("small_pool_total"%string, to_ulong sp_total);
                 ("large_pool_avail"%string, to_ulong lp_avail);
                 ("large_pool_used"%string, to_ulong lp_used);
                 ("large_pool_total"%string, to_ulong lp_total);
                 ("wm_size"%string, to_ulong wm_size);
                 ("wm_avail"%string, to_ulong wm_avail)])
             sp_blocks lp_blocks)
  end.

End Readers.

(** ** Vocabulary of the properties *)

(** The collaborator calls made by one call [m] started in world [w]. *)
Definition events_of {A : Type} (m : M A) (w : World) : list event :=
  skipn (List.length (log w)) (log (snd (m w))).

(** Handles obtained by [sdr_start_using] and not yet given back by
    [sdr_stop_using]. *)
Fixpoint remove_one (h : Sdr) (held : list Sdr) : list Sdr :=
  match held with
  | [] => []
  | x :: held' => if Nat.eqb x h then held' else x :: remove_one h held'
  end.

Definition track_handle (held : list Sdr) (e : event) : list Sdr :=
  match e with
  | Ev_sdr_start_using _ (Some h) => h :: held
  | Ev_sdr_stop_using h => remove_one h held
  | _ => held
  end.

Definition handles_held (evs : list event) : list Sdr :=
  fold_left track_handle evs [].

(** Transaction bracketing over a log, [held] telling whether a transaction
    is open at its start: [sdr_usage] only runs inside a transaction, a
    transaction is begun only when none is open and ended only when one is,
    and none is left open at the end. *)
Fixpoint xn_bracketed (held : bool) (evs : list event) : bool :=
  match evs with
  | [] => negb held
  | Ev_sdr_begin_xn _ granted :: evs' => negb held && xn_bracketed granted evs'
  | Ev_sdr_usage _ :: evs' => held && xn_bracketed held evs'
  | Ev_sdr_end_xn _ _ :: evs' => held && xn_bracketed false evs'
  | _ :: evs' => xn_bracketed held evs'
  end.




Section Ranges.

Variable wbits : Z.
Variable SMALL_SIZES : nat.
Variable LARGE_ORDERS : nat.

Definition is_size_t (z : Z) : bool := (0 <=? z) && (z <? 2 ^ wbits).

(** A summary as ION's headers type it: every scalar a [size_t], the two
    counter arrays of [SMALL_SIZES] and [LARGE_ORDERS] [size_t] entries. *)
Definition sdr_usage_typed (u : SdrUsageSummary) : bool :=
  is_size_t (sdr_smallPoolFree u) && is_size_t (sdr_smallPoolAllocated u)
  && is_size_t (sdr_smallPoolSize u) && is_size_t (sdr_largePoolFree u)
  && is_size_t (sdr_largePoolAllocated u) && is_size_t (sdr_largePoolSize u)
  && is_size_t (sdr_heapSize u) && is_size_t (sdr_unusedSize u)
  && Nat.eqb (List.length (sdr_smallPoolFreeBlockCount u)) SMALL_SIZES
  && forallb is_size_t (sdr_smallPoolFreeBlockCount u)
  && Nat.eqb (List.length (sdr_largePoolFreeBlockCount u)) LARGE_ORDERS
  && forallb is_size_t (sdr_largePoolFreeBlockCount u).

Definition psm_usage_typed (u : PsmUsageSummary) : bool :=
  is_size_t (psm_smallPoolFree u) && is_size_t (psm_smallPoolAllocated u)
  && is_size_t (psm_smallPoolSize u) && is_size_t (psm_largePoolFree u)
  && is_size_t (psm_largePoolAllocated u) && is_size_t (psm_largePoolSize u)
  && is_size_t (psm_partitionSize u) && is_size_t (psm_unusedSize u)
  && Nat.eqb (List.length (psm_smallPoolFreeBlockCount u)) SMALL_SIZES
  && forallb is_size_t (psm_smallPoolFreeBlockCount u)
  && Nat.eqb (List.length (psm_largePoolFreeBlockCount u)) LARGE_ORDERS
  && forallb is_size_t (psm_largePoolFreeBlockCount u).

Definition ion_typed (i : Ion) : Prop :=
  (forall sdr, sdr_usage_typed (ion_sdr_usage i sdr) = true) /\
  (forall psm, psm_usage_typed (ion_psm_usage i psm) = true).

End Ranges.

(** The build constants fit the machine word: the largest size class of
    either pool is representable as a [size_t]. *)
Definition constants_fit (wbits WORD_SIZE : Z) (SMALL_SIZES LARGE_ORDERS : nat)
  : Prop :=
  0 < WORD_SIZE /\
  WORD_SIZE * Z.of_nat SMALL_SIZES < 2 ^ wbits /\
  WORD_SIZE * 2 ^ Z.of_nat LARGE_ORDERS < 2 ^ wbits.

(** Size-class keys by index. *)
Definition small_key (WORD_SIZE : Z) (i : nat) : Z :=
  WORD_SIZE * (Z.of_nat i + 1).
Definition large_key (WORD_SIZE : Z) (i : nat) : Z :=
  WORD_SIZE * 2 ^ (Z.of_nat i + 1).

(** [d] is the histogram of the counter array [counts] over the [n] size
    classes [key 0 .. key (n-1)]: one entry per class, in class order, each
    holding the counter of its class. *)
Definition histogram_of (n : nat) (key : nat -> Z) (counts : list Z)
  (d : PyDictZ) : Prop :=
  List.length d = n /\
  (forall i, (i < n)%nat -> nth_error d i = Some (key i, nth i counts 0)) /\
  (forall i, (i < n)%nat -> PyDict_GetItem d (key i) = Some (nth i counts 0)).

(** The ordering of the derived heap figures in an aggregate record. *)
Definition aggregates_ordered (agg : PyDictS) : Prop :=
  exists used max_used size,
    PyDict_GetItemString agg "heap_used" = Some used /\
    PyDict_GetItemString agg "max_heap_used" = Some max_used /\
    PyDict_GetItemString agg "heap_size" = Some size /\
    used <= max_used <= size.

(** ** A 64-bit ION node used in the examples *)

Module Node64.

Definition wbits : Z := 64.
Definition WORD_SIZE : Z := 8.
Definition SMALL_SIZES : nat := 64.
Definition LARGE_ORDERS : nat := 60.

Definition sdr_summary (H HA SA LA : Z) : SdrUsageSummary :=
  {| sdr_smallPoolFree := SA;
     sdr_smallPoolAllocated := 30000;
     sdr_smallPoolSize := SA + 30000;
     sdr_smallPoolFreeBlockCount := 3 :: 0 :: 7 :: repeat 0 61;
     sdr_largePoolFree := LA;
     sdr_largePoolAllocated := 800000;
     sdr_largePoolSize := LA + 800000;
     sdr_largePoolFreeBlockCount := repeat 0 6 ++ 2 :: 1 :: repeat 0 52;
     sdr_heapSize := H;
     sdr_unusedSize := HA |}.

Definition psm_summary : PsmUsageSummary :=
  {| psm_smallPoolFree := 4096;
     psm_smallPoolAllocated := 8192;
     psm_smallPoolSize := 12288;
     psm_smallPoolFreeBlockCount := 0 :: 5 :: repeat 0 62;
     psm_largePoolFree := 65536;
     psm_largePoolAllocated := 131072;
     psm_largePoolSize := 196608;
     psm_largePoolFreeBlockCount := repeat 0 9 ++ 4 :: repeat 0 50;
     psm_partitionSize := 1000000;
     psm_unusedSize := 791104 |}.

(** A node with one SDR named "ion" and one partition under key 65281.
    [begin_ok] tells whether transactions are granted, [end_rc] is what
    [sdr_end_xn] returns, [ipc_rc] what [sm_ipc_init] returns. *)
Definition node (u : SdrUsageSummary) (begin_ok : bool) (end_rc ipc_rc : Z)
  : Ion :=
  {| ion_sdr_start_using :=
       fun name => if String.eqb name "ion" then Some 1%nat else None;
     ion_sdr_begin_xn := fun _ => begin_ok;
     ion_sdr_usage := fun _ => u;
     ion_sdr_end_xn := fun _ => end_rc;
     ion_sm_ipc_init := ipc_rc;
     ion_memmgr_open :=
       fun key _ _ => if key =? 65281 then (0, 1%nat) else (-1, 0%nat);
     ion_psm_usage := fun _ => psm_summary |}.

Definition fresh (i : Ion) : World := {| ion := i; pyerr := None; log := [] |}.

Definition sdr_call (i : Ion) (name : string) : PyRet * World :=
  pyion_sdr_dump wbits WORD_SIZE SMALL_SIZES LARGE_ORDERS [PyStr name] (fresh i).

Definition psm_call (i : Ion) (key : Z) : PyRet * World :=
  pyion_psm_dump wbits WORD_SIZE SMALL_SIZES LARGE_ORDERS
    [PyLong key; PyLong 1000000; PyStr "ionwm"] (fresh i).

(** The summary of the spec's worked example. *)
Definition example_summary : SdrUsageSummary :=
  sdr_summary 1000000 100000 50000 20000.

Definition healthy : Ion := node example_summary true (-1) 0.

End Node64.

(** ** The exit paths of the two functions *)

Section Paths.

Variable wbits : Z.
Variable WORD_SIZE : Z.
Variable SMALL_SIZES : nat.
Variable LARGE_ORDERS : nat.

(** The dictionaries built by the two loops, as functions of the counter
    arrays they walk. *)
Definition small_histogram (counts : list Z) : PyDictZ :=
  snd (for_loop SMALL_SIZES (small_pool_step wbits WORD_SIZE counts)
         (to_size_t wbits 0, PyDict_New)).

Definition large_histogram (counts : list Z) : PyDictZ :=
  snd (for_loop LARGE_ORDERS (large_pool_step wbits counts)
         (to_size_t wbits WORD_SIZE, PyDict_New)).

(** The aggregate dictionaries of lines 143-153 and 228-236. *)
Definition sdr_aggregate (u : SdrUsageSummary) : PyDictS :=
  let sp_avail := to_size_t wbits (sdr_smallPoolFree u) in
  let lp_avail := to_size_t wbits (sdr_largePoolFree u) in
  let hp_size := to_size_t wbits (sdr_heapSize u) in
  let hp_avail := to_size_t wbits (sdr_unusedSize u) in
  Dict.build String.eqb
    [("small_pool_avail"%string, to_ulong wbits sp_avail);
     ("small_pool_used"%string,
       to_ulong wbits (to_size_t wbits (sdr_smallPoolAllocated u)));
     ("small_pool_total"%string,
       to_ulong wbits (to_size_t wbits (sdr_smallPoolSize u)));
     ("large_pool_avail"%string, to_ulong wbits lp_avail);
     ("large_pool_used"%string,
       to_ulong wbits (to_size_t wbits (sdr_largePoolAllocated u)));
     ("large_pool_total"%string,
       to_ulong wbits (to_size_t wbits (sdr_largePoolSize u)));
     ("heap_size"%string, to_ulong wbits hp_size);
     ("heap_avail"%string, to_ulong wbits hp_avail);
     ("heap_used"%string,
       to_ulong wbits
         (size_sub wbits hp_size
            (size_add wbits (size_add wbits sp_avail lp_avail) hp_avail)));
     ("max_heap_used"%string,
       to_ulong wbits (size_sub wbits hp_size hp_avail))].

Definition psm_aggregate (u : PsmUsageSummary) : PyDictS :=
  Dict.build String.eqb
    [("small_pool_avail"%string,
       to_ulong wbits (to_size_t wbits (psm_smallPoolFree u)));
     ("small_pool_used"%string,
       to_ulong wbits (to_size_t wbits (psm_smallPoolAllocated u)));
     ("small_pool_total"%string,
       to_ulong wbits (to_size_t wbits (psm_smallPoolSize u)));
     ("large_pool_avail"%string,
       to_ulong wbits (to_size_t wbits (psm_largePoolFree u)));
     ("large_pool_used"%string,
       to_ulong wbits (to_size_t wbits (psm_largePoolAllocated u)));
     ("large_pool_total"%string,
       to_ulong wbits (to_size_t wbits (psm_largePoolSize u)));
     ("wm_size"%string,
       to_ulong wbits (to_size_t wbits (psm_partitionSize u)));
     ("wm_avail"%string,
       to_ulong wbits (to_size_t wbits (psm_unusedSize u)))].

(** [sdr_outcome i args r e evs]: against the node [i], a call of
    [pyion_sdr_dump] with [args] takes a path that returns [r], sets the
    pending exception to [e] (leaves it alone when [e] is [None]) and
    makes the collaborator calls [evs]. *)
Inductive sdr_outcome (i : Ion) (args : list PyObject)
  : PyRet -> option (PyExcClass * string) -> list event -> Prop :=
| Sdr_bad_args c :
    parse_tuple_s args = inl c ->
    sdr_outcome i args PyNULL (Some (c, EmptyString)) []
| Sdr_no_attach name :
    parse_tuple_s args = inr name ->
    ion_sdr_start_using i name = None ->
    sdr_outcome i args PyNULL
      (Some (PyExc_MemoryError,
             format "Could not attach to SDR with name '%s'." [FmtStr name]))
      [Ev_sdr_initialize; Ev_sdr_start_using name None]
| Sdr_no_xn name sdr :
    parse_tuple_s args = inr name ->
    ion_sdr_start_using i name = Some sdr ->
    ion_sdr_begin_xn i sdr = false ->
    sdr_outcome i args PyNULL
      (Some (TransactionError, "Cannot start SDR transaction."%string))
      [Ev_sdr_initialize; Ev_sdr_start_using name (Some sdr);
       Ev_sdr_begin_xn sdr false]
| Sdr_end_zero name sdr :
    parse_tuple_s args = inr name ->
    ion_sdr_start_using i name = Some sdr ->
    ion_sdr_begin_xn i sdr = true ->
    ion_sdr_end_xn i sdr = 0 ->
    sdr_outcome i args PyNULL None
      [Ev_sdr_initialize; Ev_sdr_start_using name (Some sdr);
       Ev_sdr_begin_xn sdr true; Ev_sdr_usage sdr; Ev_sdr_end_xn sdr 0]
| Sdr_snapshot name sdr :
    parse_tuple_s args = inr name ->
    ion_sdr_start_using i name = Some sdr ->
    ion_sdr_begin_xn i sdr = true ->
    ion_sdr_end_xn i sdr <> 0 ->
    sdr_outcome i args
      (PyTuple3 (sdr_aggregate (ion_sdr_usage i sdr))
         (small_histogram (sdr_smallPoolFreeBlockCount (ion_sdr_usage i sdr)))
         (large_histogram (sdr_largePoolFreeBlockCount (ion_sdr_usage i sdr))))
      None
      [Ev_sdr_initialize; Ev_sdr_start_using name (Some sdr);
       Ev_sdr_begin_xn sdr true; Ev_sdr_usage sdr;
       Ev_sdr_end_xn sdr (ion_sdr_end_xn i sdr); Ev_sdr_stop_using sdr].

Inductive psm_outcome (i : Ion) (args : list PyObject)
  : PyRet -> option (PyExcClass * string) -> list event -> Prop :=
| Psm_bad_args c :
    parse_tuple_iLs args = inl c ->
    psm_outcome i args PyNULL (Some (c, EmptyString)) []
| Psm_no_ipc memKey memSize partitionName :
    parse_tuple_iLs args = inr (memKey, memSize, partitionName) ->
    ion_sm_ipc_init i < 0 ->
    psm_outcome i args PyNULL
      (Some (PyExc_MemoryError, format "IPC initialization failed." []))
      [Ev_sm_ipc_init (ion_sm_ipc_init i)]
| Psm_no_attach memKey memSize partitionName :
    parse_tuple_iLs args = inr (memKey, memSize, partitionName) ->
    0 <= ion_sm_ipc_init i ->
    fst (ion_memmgr_open i memKey memSize partitionName) < 0 ->
    psm_outcome i args PyNULL
      (Some (PyExc_MemoryError,
             format "Can't attach to PSM with key '%i'." [FmtInt memKey]))
      [Ev_sm_ipc_init (ion_sm_ipc_init i);
       Ev_memmgr_open memKey memSize partitionName
         (fst (ion_memmgr_open i memKey memSize partitionName))]
| Psm_snapshot memKey memSize partitionName :
    parse_tuple_iLs args = inr (memKey, memSize, partitionName) ->
    0 <= ion_sm_ipc_init i ->
    0 <= fst (ion_memmgr_open i memKey memSize partitionName) ->
    let psm := snd (ion_memmgr_open i memKey memSize partitionName) in
    psm_outcome i args
      (PyTuple3 (psm_aggregate (ion_psm_usage i psm))
         (small_histogram (psm_smallPoolFreeBlockCount (ion_psm_usage i psm)))
         (large_histogram (psm_largePoolFreeBlockCount (ion_psm_usage i psm))))
      None
      [Ev_sm_ipc_init (ion_sm_ipc_init i);
       Ev_memmgr_open memKey memSize partitionName
         (fst (ion_memmgr_open i memKey memSize partitionName));
       Ev_psm_usage psm].

(** The world a path leaves behind. *)
Definition after (w : World) (e : option (PyExcClass * string))
  (evs : list event) : World :=
  {| ion := ion w;
     pyerr := match e with Some x => Some x | None => pyerr w end;
     log := log w ++ evs |}.

End Paths.

(** ** The module table and its initialisation *)

(** The two C functions the method table points to. *)
Inductive PyCFunction :=
| Fn_pyion_sdr_dump
| Fn_pyion_psm_dump.

Definition METH_VARARGS : Z := 1.

(** One row of [module_methods]; [None] stands for a NULL pointer. *)
Record PyMethodDef := {
  ml_name : option string;
  ml_meth : option PyCFunction;
  ml_flags : Z;
  ml_doc : option string
}.

Definition module_docstring : string :=
  "Extension module to interface ION's memory management functions and Python.".
Definition sdr_dump_docstring : string := "Dump the state of the SDR.".
Definition psm_dump_docstring : string := "Dump the state of the PSM.".

Definition module_methods : list PyMethodDef :=
  [ {| ml_name := Some "sdr_dump"%string; ml_meth := Some Fn_pyion_sdr_dump;
       ml_flags := METH_VARARGS; ml_doc := Some sdr_dump_docstring |};
    {| ml_name := Some "psm_dump"%string; ml_meth := Some Fn_pyion_psm_dump;
       ml_flags := METH_VARARGS; ml_doc := Some psm_dump_docstring |};
    {| ml_name := None; ml_meth := None; ml_flags := 0; ml_doc := None |} ].

Record PyModuleDef := {
  m_name : string;
  m_doc : string;
  m_size : Z;
  m_methods : list PyMethodDef
}.

(** A module object: its name, its docstring and its dictionary of
    built-in functions, each kept with its flags and docstring. *)
Record PyModule := {
  md_name : string;
  md_doc : string;
  md_dict : list (string * (PyCFunction * Z * option string))
}.

(** CPython registers the rows of the table one after the other and stops
    at the first row whose name is NULL. *)
Fixpoint PyModule_AddFunctions (defs : list PyMethodDef)
  (d : list (string * (PyCFunction * Z * option string)))
  : list (string * (PyCFunction * Z * option string)) :=
  match defs with
  | [] => d
  | def :: rest =>
      match ml_name def, ml_meth def with
      | Some name, Some f =>
          PyModule_AddFunctions rest
            (Dict.set_item String.eqb d name (f, ml_flags def, ml_doc def))
      | _, _ => d
      end
  end.

Definition PyModule_Create (def : PyModuleDef) : PyModule :=
  {| md_name := m_name def;
     md_doc := m_doc def;
     md_dict := PyModule_AddFunctions (m_methods def) [] |}.

Definition moduledef : PyModuleDef :=
  {| m_name := "_mem";
     m_doc := module_docstring;
     m_size := -1;
     m_methods := module_methods |}.

Definition PyInit__mem : PyModule := PyModule_Create moduledef.

(** Attribute lookup on the module, and the call of a function found
    there with a tuple of positional arguments. *)
Definition PyModule_GetFunction (m : PyModule) (name : string)
  : option PyCFunction :=
  match Dict.get_item String.eqb (md_dict m) name with
  | Some (f, _, _) => Some f
  | None => None
  end.

Definition PyCFunction_Call (wbits WORD_SIZE : Z)
  (SMALL_SIZES LARGE_ORDERS : nat) (f : PyCFunction) (args : list PyObject)
  : M PyRet :=
  match f with
  | Fn_pyion_sdr_dump =>
      pyion_sdr_dump wbits WORD_SIZE SMALL_SIZES LARGE_ORDERS args
  | Fn_pyion_psm_dump =>
      pyion_psm_dump wbits WORD_SIZE SMALL_SIZES LARGE_ORDERS args
  end.

(** ** Further vocabulary *)

Definition is_sdr_event (e : event) : bool :=
  match e with
  | Ev_sdr_initialize | Ev_sdr_start_using _ _ | Ev_sdr_begin_xn _ _
  | Ev_sdr_usage _ | Ev_sdr_end_xn _ _ | Ev_sdr_stop_using _ => true
  | _ => false
  end.

Definition is_psm_event (e : event) : bool :=
  match e with
  | Ev_sm_ipc_init _ | Ev_memmgr_open _ _ _ _ | Ev_psm_usage _ => true
  | _ => false
  end.

Definition is_snapshot (r : PyRet) : bool :=
  match r with PyTuple3 _ _ _ => true | PyNULL => false end.

(** The last index below [n] whose key is [k], if any. *)
Definition last_index (n : nat) (key : nat -> Z) (k : Z) : option nat :=
  fold_left (fun found i => if key i =? k then Some i else found)
    (seq 0 n) None.

(** The keys the two loops compute, wrap-around included. *)
Definition small_key_wrapped (wbits WORD_SIZE : Z) (i : nat) : Z :=
  wrap wbits (WORD_SIZE * (Z.of_nat i + 1)).
Definition large_key_wrapped (wbits WORD_SIZE : Z) (i : nat) : Z :=
  wrap wbits (WORD_SIZE * 2 ^ (Z.of_nat i + 1)).

(** [d] is what a loop over [n] size classes leaves behind when keys may
    coincide: no key occurs twice, there are at most [n] entries, and the
    value under a key is the counter of the last class with that key. *)
Definition histogram_wrapped (wbits : Z) (n : nat) (key : nat -> Z)
  (counts : list Z) (d : PyDictZ) : Prop :=
  NoDup (Dict.keys d) /\
  (List.length d <= n)%nat /\
  forall k,
    PyDict_GetItem d k
    = option_map (fun i => wrap wbits (nth i counts 0)) (last_index n key k).

(** Every key and every value of a dictionary is an [unsigned long]. *)
Definition dict_in_range {K : Type} (wbits : Z) (key_ok : K -> bool)
  (d : list (K * Z)) : bool :=
  forallb (fun kv => key_ok (fst kv) && is_size_t wbits (snd kv)) d.

(** ** Proof steps shared by the lemmas below *)

Ltac unfold_calls :=
  unfold PyArg_ParseTuple_s, PyArg_ParseTuple_iLs, PyArg_ParseTuple,
    sdr_pybegin_xn, sdr_begin_xn, sdr_start_using, sdr_initialize, sdr_usage,
    sdr_end_xn, sdr_stop_using, sm_ipc_init, memmgr_open, psm_usage,
    pyion_SetExc, PyErr_SetString, emit, ask, bind, ret;
  cbn [ion pyerr log fst snd negb].

Ltac same_world :=
  unfold after; cbn [ion pyerr log];
  repeat rewrite <- app_assoc; cbn [app]; rewrite ?app_nil_r; reflexivity.

Ltac split_typed H :=
  repeat (let H' := fresh "Hty" in apply andb_true_iff in H as [H H']).

Ltac same_inputs :=
  repeat match goal with
         | X : ?a = inr _, Y : ?a = inr _ |- _ =>
             rewrite X in Y; injection Y; clear Y; intros; subst
         | X : ?a = inl _, Y : ?a = inl _ |- _ =>
             rewrite X in Y; injection Y; clear Y; intros; subst
         | X : ?a = Some _, Y : ?a = Some _ |- _ =>
             rewrite X in Y; injection Y; clear Y; intros; subst
         end.

(** * Properties *)

(** ** Dictionaries *)

Section DictFacts.
Context {K V : Type}.
Variable eqb : K -> K -> bool.
Hypothesis eqb_eq : forall a b, eqb a b = true <-> a = b.

Lemma set_item_fresh (d : list (K * V)) k v :
  ~ In k (Dict.keys d) -> Dict.set_item eqb d k v = d ++ [(k, v)].
Proof.
  induction d as [|[k' v'] d IH]; simpl; intros Hk; [reflexivity|].
  destruct (eqb k' k) eqn:E.
  - apply eqb_eq in E. tauto.
  - rewrite IH by tauto. reflexivity.
Qed.

Lemma keys_set_item_congr (d1 d2 : list (K * V)) k v1 v2 :
  Dict.keys d1 = Dict.keys d2 ->
  Dict.keys (Dict.set_item eqb d1 k v1) = Dict.keys (Dict.set_item eqb d2 k v2).
Proof.
  revert d2. induction d1 as [|[k1 x1] d1 IH]; intros [|[k2 x2] d2]; simpl;
    try discriminate; [reflexivity|].
  intros H. injection H as -> H.
  destruct (eqb k2 k); simpl; [congruence|].
  f_equal. now apply IH.
Qed.

Lemma get_item_app_fresh (d : list (K * V)) k v :
  ~ In k (Dict.keys d) -> Dict.get_item eqb (d ++ [(k, v)]) k = Some v.
Proof.
  induction d as [|[k' v'] d IH]; simpl; intros Hk.
  - destruct (eqb k k) eqn:E; [reflexivity|].
    assert (eqb k k = true) by now apply eqb_eq. congruence.
  - destruct (eqb k' k) eqn:E.
    + apply eqb_eq in E. tauto.
    + apply IH. tauto.
Qed.

Lemma get_item_app_old (d : list (K * V)) k k' v :
  In k' (Dict.keys d) ->
  Dict.get_item eqb (d ++ [(k, v)]) k' = Dict.get_item eqb d k'.
Proof.
  induction d as [|[k0 v0] d IH]; simpl; intros Hk; [tauto|].
  destruct (eqb k0 k') eqn:E; [reflexivity|].
  apply IH. destruct Hk as [->|Hk]; [|exact Hk].
  assert (eqb k' k' = true) by now apply eqb_eq. congruence.
Qed.

End DictFacts.

(** ** Every call takes one of the listed paths *)

Section PathLemmas.

Variable wbits : Z.
Variable WORD_SIZE : Z.
Variable SMALL_SIZES : nat.
Variable LARGE_ORDERS : nat.

Local Abbreviation sdr_dump := (pyion_sdr_dump wbits WORD_SIZE SMALL_SIZES LARGE_ORDERS).
Local Abbreviation psm_dump := (pyion_psm_dump wbits WORD_SIZE SMALL_SIZES LARGE_ORDERS).
Local Abbreviation sdr_path := (sdr_outcome wbits WORD_SIZE SMALL_SIZES LARGE_ORDERS).
Local Abbreviation psm_path := (psm_outcome wbits WORD_SIZE SMALL_SIZES LARGE_ORDERS).

Lemma sdr_dump_path (args : list PyObject) (w : World) :
  exists r e evs,
    sdr_path (ion w) args r e evs /\ sdr_dump args w = (r, after w e evs).
Proof.
  unfold pyion_sdr_dump. unfold_calls.
  destruct (parse_tuple_s args) as [c|name] eqn:Hparse; unfold_calls.
  { exists PyNULL, (Some (c, EmptyString)), []. split.
    - now apply Sdr_bad_args.
    - same_world. }
  destruct (ion_sdr_start_using (ion w) name) as [sdr|] eqn:Hattach; unfold_calls.
  2:{ do 3 eexists. split; [now apply (Sdr_no_attach _ _ _ _ _ _ name)|].
      same_world. }
  destruct (ion_sdr_begin_xn (ion w) sdr) eqn:Hbegin; unfold_calls.
  2:{ do 3 eexists. split; [now apply (Sdr_no_xn _ _ _ _ _ _ name sdr)|].
      same_world. }
  destruct (ion_sdr_end_xn (ion w) sdr =? 0) eqn:Hend; unfold_calls.
  - apply Z.eqb_eq in Hend.
    do 3 eexists. split; [now apply (Sdr_end_zero _ _ _ _ _ _ name sdr)|].
    rewrite Hend. same_world.
  - apply Z.eqb_neq in Hend.
    do 3 eexists. split; [now apply (Sdr_snapshot _ _ _ _ _ _ name sdr)|].
    same_world.
Qed.

Lemma psm_dump_path (args : list PyObject) (w : World) :
  exists r e evs,
    psm_path (ion w) args r e evs /\ psm_dump args w = (r, after w e evs).
Proof.
  unfold pyion_psm_dump. unfold_calls.
  destruct (parse_tuple_iLs args) as [c|[[memKey memSize] partitionName]]
    eqn:Hparse; unfold_calls.
  { exists PyNULL, (Some (c, EmptyString)), []. split.
    - now apply Psm_bad_args.
    - same_world. }
  destruct (ion_sm_ipc_init (ion w) <? 0) eqn:Hipc; unfold_calls.
  { apply Z.ltb_lt in Hipc. do 3 eexists.
    split; [now apply (Psm_no_ipc _ _ _ _ _ _ memKey memSize partitionName)|].
    same_world. }
  apply Z.ltb_ge in Hipc.
  destruct (ion_memmgr_open (ion w) memKey memSize partitionName)
    as [rc psm] eqn:Hopen; unfold_calls.
  destruct (rc <? 0) eqn:Hrc; unfold_calls.
  - apply Z.ltb_lt in Hrc. do 3 eexists. split.
    + apply (Psm_no_attach _ _ _ _ _ _ memKey memSize partitionName);
        [assumption|assumption|now rewrite Hopen].
    + rewrite Hopen. same_world.
  - apply Z.ltb_ge in Hrc. do 3 eexists. split.
    + apply (Psm_snapshot _ _ _ _ _ _ memKey memSize partitionName);
        [assumption|assumption|now rewrite Hopen].
    + rewrite Hopen. same_world.
Qed.

End PathLemmas.

(** ** The two loops *)

Lemma for_loop_S {S : Type} (n : nat) (body : nat -> S -> S) (s : S) :
  for_loop (Datatypes.S n) body s = body n (for_loop n body s).
Proof.
  unfold for_loop. rewrite seq_S, fold_left_app. reflexivity.
Qed.

Lemma tabulate_S {A : Type} (f : nat -> A) (n : nat) :
  map f (seq 0 (S n)) = map f (seq 0 n) ++ [f n].
Proof.
  rewrite seq_S, map_app. reflexivity.
Qed.

Lemma keys_tabulate (key val : nat -> Z) (n : nat) :
  Dict.keys (map (fun i => (key i, val i)) (seq 0 n)) = map key (seq 0 n).
Proof.
  unfold Dict.keys. rewrite map_map. reflexivity.
Qed.

Lemma tabulate_fresh (key : nat -> Z) (n : nat) (k : Z) :
  (forall i, (i < n)%nat -> key i <> k) -> ~ In k (map key (seq 0 n)).
Proof.
  intros Hne Hin. apply in_map_iff in Hin as (i & Hi & Hseq).
  apply in_seq in Hseq. apply (Hne i); [lia|assumption].
Qed.

Lemma get_item_tabulate (key val : nat -> Z) (n : nat) :
  (forall i j, (i < j < n)%nat -> key i <> key j) ->
  forall j, (j < n)%nat ->
    PyDict_GetItem (map (fun i => (key i, val i)) (seq 0 n)) (key j)
    = Some (val j).
Proof.
  unfold PyDict_GetItem.
  induction n as [|n IH]; intros Hinj j Hj; [lia|].
  rewrite tabulate_S.
  destruct (Nat.eq_dec j n) as [->|Hne].
  - apply (get_item_app_fresh Z.eqb Z.eqb_eq).
    rewrite keys_tabulate. apply tabulate_fresh.
    intros i Hi. apply Hinj. lia.
  - rewrite (get_item_app_old Z.eqb Z.eqb_eq).
    + apply IH; [|lia]. intros a b Hab. apply Hinj. lia.
    + rewrite keys_tabulate. apply in_map, in_seq. lia.
Qed.

Lemma sorted_tabulate (key : nat -> Z) (a n : nat) :
  (forall i j, (i < j)%nat -> key i < key j) ->
  StronglySorted Z.lt (map key (seq a n)).
Proof.
  intros Hmono. revert a. induction n as [|n IH]; intros a; simpl.
  - constructor.
  - constructor; [apply IH|].
    apply Forall_forall. intros k Hk.
    apply in_map_iff in Hk as (i & <- & Hi). apply in_seq in Hi.
    apply Hmono. lia.
Qed.

Lemma small_key_mono (W : Z) (i j : nat) :
  0 < W -> (i < j)%nat -> small_key W i < small_key W j.
Proof.
  unfold small_key. intros HW Hij. nia.
Qed.

Lemma large_key_mono (W : Z) (i j : nat) :
  0 < W -> (i < j)%nat -> large_key W i < large_key W j.
Proof.
  unfold large_key. intros HW Hij.
  apply Z.mul_lt_mono_pos_l; [assumption|].
  apply Z.pow_lt_mono_r; lia.
Qed.

Section LoopFacts.

Variable wbits : Z.
Variable WORD_SIZE : Z.


Lemma wrap_small (z : Z) : 0 <= z < 2 ^ wbits -> wrap wbits z = z.
Proof.
  intros H. unfold wrap. now apply Z.mod_small.
Qed.

Lemma is_size_t_wrap (z : Z) : is_size_t wbits z = true -> wrap wbits z = z.
Proof.
  unfold is_size_t. intros H. apply andb_true_iff in H as [H1 H2].
  apply wrap_small. apply Z.leb_le in H1. apply Z.ltb_lt in H2. lia.
Qed.

(** After [n] rounds the small-pool loop holds [WORD_SIZE * n] in
    [sp_blk_size] and one entry per index in the dictionary. *)
Lemma small_loop_exact (counts : list Z) (n : nat) :
  0 < WORD_SIZE ->
  WORD_SIZE * Z.of_nat n < 2 ^ wbits ->
  for_loop n (small_pool_step wbits WORD_SIZE counts)
    (to_size_t wbits 0, PyDict_New)
  = (WORD_SIZE * Z.of_nat n,
     map (fun i => (small_key WORD_SIZE i, to_ulong wbits (nth i counts 0)))
       (seq 0 n)).
Proof.
  intros HW. induction n as [|n IH]; intros Hfit.
  - unfold for_loop, to_size_t, wrap. simpl.
    rewrite Zmod_0_l. now rewrite Z.mul_0_r.
  - rewrite for_loop_S, IH by nia.
    unfold small_pool_step, size_add, to_size_t, to_ulong.
    rewrite (wrap_small WORD_SIZE) by nia.
    replace (WORD_SIZE * Z.of_nat n + WORD_SIZE)
      with (WORD_SIZE * Z.of_nat (S n)) by nia.
    rewrite !(wrap_small (WORD_SIZE * Z.of_nat (S n))) by nia.
    f_equal. unfold PyDict_SetItem.
    rewrite (set_item_fresh Z.eqb Z.eqb_eq), tabulate_S.
    + unfold small_key. do 3 f_equal. lia.
    + rewrite keys_tabulate. apply tabulate_fresh.
      intros i Hi. unfold small_key. nia.
Qed.

Lemma large_loop_exact (counts : list Z) (n : nat) :
  0 < WORD_SIZE ->
  WORD_SIZE * 2 ^ Z.of_nat n < 2 ^ wbits ->
  for_loop n (large_pool_step wbits counts)
    (to_size_t wbits WORD_SIZE, PyDict_New)
  = (WORD_SIZE * 2 ^ Z.of_nat n,
     map (fun i => (large_key WORD_SIZE i, to_ulong wbits (nth i counts 0)))
       (seq 0 n)).
Proof.
  intros HW. induction n as [|n IH]; intros Hfit.
  - unfold for_loop, to_size_t. simpl in *.
    rewrite wrap_small by lia. f_equal. lia.
  - assert (Hpow : 2 ^ Z.of_nat (S n) = 2 ^ Z.of_nat n * 2).
    { rewrite Nat2Z.inj_succ, Z.pow_succ_r by lia. lia. }
    assert (0 < 2 ^ Z.of_nat n) by (apply Z.pow_pos_nonneg; lia).
    rewrite for_loop_S, IH by nia.
    unfold large_pool_step, size_mul, to_ulong.
    replace (WORD_SIZE * 2 ^ Z.of_nat n * 2)
      with (WORD_SIZE * 2 ^ Z.of_nat (S n)) by (rewrite Hpow; lia).
    rewrite !(wrap_small (WORD_SIZE * 2 ^ Z.of_nat (S n))) by nia.
    f_equal. unfold PyDict_SetItem.
    rewrite (set_item_fresh Z.eqb Z.eqb_eq), tabulate_S.
    + unfold large_key. do 3 f_equal. lia.
    + rewrite keys_tabulate. apply tabulate_fresh.
      intros i Hi. apply Z.lt_neq.
      replace (WORD_SIZE * 2 ^ Z.of_nat (S n))
        with (large_key WORD_SIZE n) by (unfold large_key; f_equal; f_equal; lia).
      now apply large_key_mono.
Qed.

(** The key lists of the two loops do not depend on the counters read,
    whatever the constants. *)
Lemma small_loop_keys (c1 c2 : list Z) (n : nat) (s : Z) (d1 d2 : PyDictZ) :
  Dict.keys d1 = Dict.keys d2 ->
  let r1 := for_loop n (small_pool_step wbits WORD_SIZE c1) (s, d1) in
  let r2 := for_loop n (small_pool_step wbits WORD_SIZE c2) (s, d2) in
  fst r1 = fst r2 /\ Dict.keys (snd r1) = Dict.keys (snd r2).
Proof.
  intros Hd. induction n as [|n IH]; cbn zeta in *.
  - unfold for_loop. simpl. auto.
  - rewrite !for_loop_S.
    destruct (for_loop n (small_pool_step wbits WORD_SIZE c1) (s, d1)) as [s1 e1].
    destruct (for_loop n (small_pool_step wbits WORD_SIZE c2) (s, d2)) as [s2 e2].
    simpl in IH. destruct IH as [-> IH]. simpl. split; [reflexivity|].
    now apply keys_set_item_congr.
Qed.

Lemma large_loop_keys (c1 c2 : list Z) (n : nat) (s : Z) (d1 d2 : PyDictZ) :
  Dict.keys d1 = Dict.keys d2 ->
  let r1 := for_loop n (large_pool_step wbits c1) (s, d1) in
  let r2 := for_loop n (large_pool_step wbits c2) (s, d2) in
  fst r1 = fst r2 /\ Dict.keys (snd r1) = Dict.keys (snd r2).
Proof.
  intros Hd. induction n as [|n IH]; cbn zeta in *.
  - unfold for_loop. simpl. auto.
  - rewrite !for_loop_S.
    destruct (for_loop n (large_pool_step wbits c1) (s, d1)) as [s1 e1].
    destruct (for_loop n (large_pool_step wbits c2) (s, d2)) as [s2 e2].
    simpl in IH. destruct IH as [-> IH]. simpl. split; [reflexivity|].
    now apply keys_set_item_congr.
Qed.

End LoopFacts.

(** ** What a returned snapshot is made of *)

Section Snapshots.

Variable wbits : Z.
Variable WORD_SIZE : Z.
Variable SMALL_SIZES : nat.
Variable LARGE_ORDERS : nat.

Local Abbreviation sdr_dump := (pyion_sdr_dump wbits WORD_SIZE SMALL_SIZES LARGE_ORDERS).
Local Abbreviation psm_dump := (pyion_psm_dump wbits WORD_SIZE SMALL_SIZES LARGE_ORDERS).
Local Abbreviation small_hist := (small_histogram wbits WORD_SIZE SMALL_SIZES).
Local Abbreviation large_hist := (large_histogram wbits WORD_SIZE LARGE_ORDERS).

Lemma sdr_dump_snapshot (args : list PyObject) (w w' : World) agg sp lp :
  sdr_dump args w = (PyTuple3 agg sp lp, w') ->
  exists name sdr,
    parse_tuple_s args = inr name /\
    ion_sdr_start_using (ion w) name = Some sdr /\
    ion_sdr_begin_xn (ion w) sdr = true /\
    ion_sdr_end_xn (ion w) sdr <> 0 /\
    agg = sdr_aggregate wbits (ion_sdr_usage (ion w) sdr) /\
    sp = small_hist (sdr_smallPoolFreeBlockCount (ion_sdr_usage (ion w) sdr)) /\
    lp = large_hist (sdr_largePoolFreeBlockCount (ion_sdr_usage (ion w) sdr)) /\
    w' = after w None
           [Ev_sdr_initialize; Ev_sdr_start_using name (Some sdr);
            Ev_sdr_begin_xn sdr true; Ev_sdr_usage sdr;
            Ev_sdr_end_xn sdr (ion_sdr_end_xn (ion w) sdr);
            Ev_sdr_stop_using sdr].
Proof.
  intros Hrun.
  destruct (sdr_dump_path wbits WORD_SIZE SMALL_SIZES LARGE_ORDERS args w)
    as (r & e & evs & Hpath & Heq).
  rewrite Heq in Hrun. injection Hrun as -> <-.
  inversion Hpath; subst. exists name, sdr. repeat split; assumption.
Qed.

Lemma psm_dump_snapshot (args : list PyObject) (w w' : World) agg sp lp :
  psm_dump args w = (PyTuple3 agg sp lp, w') ->
  exists memKey memSize partitionName,
    parse_tuple_iLs args = inr (memKey, memSize, partitionName) /\
    0 <= ion_sm_ipc_init (ion w) /\
    0 <= fst (ion_memmgr_open (ion w) memKey memSize partitionName) /\
    let psm := snd (ion_memmgr_open (ion w) memKey memSize partitionName) in
    agg = psm_aggregate wbits (ion_psm_usage (ion w) psm) /\
    sp = small_hist (psm_smallPoolFreeBlockCount (ion_psm_usage (ion w) psm)) /\
    lp = large_hist (psm_largePoolFreeBlockCount (ion_psm_usage (ion w) psm)) /\
    w' = after w None
           [Ev_sm_ipc_init (ion_sm_ipc_init (ion w));
            Ev_memmgr_open memKey memSize partitionName
              (fst (ion_memmgr_open (ion w) memKey memSize partitionName));
            Ev_psm_usage psm].
Proof.
  intros Hrun.
  destruct (psm_dump_path wbits WORD_SIZE SMALL_SIZES LARGE_ORDERS args w)
    as (r & e & evs & Hpath & Heq).
  rewrite Heq in Hrun. injection Hrun as -> <-.
  inversion Hpath; subst. exists memKey, memSize, partitionName.
  repeat split; assumption.
Qed.

Lemma small_histogram_keys (counts : list Z) :
  constants_fit wbits WORD_SIZE SMALL_SIZES LARGE_ORDERS ->
  Dict.keys (small_hist counts) = map (small_key WORD_SIZE) (seq 0 SMALL_SIZES).
Proof.
  intros (HW & Hs & Hl). unfold small_histogram.
  rewrite small_loop_exact by assumption. apply keys_tabulate.
Qed.

Lemma large_histogram_keys (counts : list Z) :
  constants_fit wbits WORD_SIZE SMALL_SIZES LARGE_ORDERS ->
  Dict.keys (large_hist counts) = map (large_key WORD_SIZE) (seq 0 LARGE_ORDERS).
Proof.
  intros (HW & Hs & Hl). unfold large_histogram.
  rewrite large_loop_exact by assumption. apply keys_tabulate.
Qed.

Lemma typed_tabulate (key : nat -> Z) (counts : list Z) (n : nat) :
  List.length counts = n ->
  forallb (is_size_t wbits) counts = true ->
  map (fun i => (key i, to_ulong wbits (nth i counts 0))) (seq 0 n)
  = map (fun i => (key i, nth i counts 0)) (seq 0 n).
Proof.
  intros Hlen Hall. apply map_ext_in. intros i Hi. apply in_seq in Hi.
  f_equal. apply is_size_t_wrap.
  rewrite forallb_forall in Hall. apply Hall, nth_In. lia.
Qed.

Lemma small_histogram_exact (counts : list Z) :
  constants_fit wbits WORD_SIZE SMALL_SIZES LARGE_ORDERS ->
  List.length counts = SMALL_SIZES ->
  forallb (is_size_t wbits) counts = true ->
  small_hist counts
  = map (fun i => (small_key WORD_SIZE i, nth i counts 0)) (seq 0 SMALL_SIZES).
Proof.
  intros (HW & Hs & Hl) Hlen Hall. unfold small_histogram.
  rewrite small_loop_exact by assumption. now apply typed_tabulate.
Qed.

Lemma large_histogram_exact (counts : list Z) :
  constants_fit wbits WORD_SIZE SMALL_SIZES LARGE_ORDERS ->
  List.length counts = LARGE_ORDERS ->
  forallb (is_size_t wbits) counts = true ->
  large_hist counts
  = map (fun i => (large_key WORD_SIZE i, nth i counts 0)) (seq 0 LARGE_ORDERS).
Proof.
  intros (HW & Hs & Hl) Hlen Hall. unfold large_histogram.
  rewrite large_loop_exact by assumption. now apply typed_tabulate.
Qed.

Lemma sdr_aggregate_heap_used (u : SdrUsageSummary) :
  PyDict_GetItemString (sdr_aggregate wbits u) "heap_used"
  = Some (wrap wbits
            (sdr_heapSize u
             - (sdr_smallPoolFree u + sdr_largePoolFree u + sdr_unusedSize u))).
Proof.
  transitivity
    (Some (to_ulong wbits
             (size_sub wbits (to_size_t wbits (sdr_heapSize u))
                (size_add wbits
                   (size_add wbits (to_size_t wbits (sdr_smallPoolFree u))
                      (to_size_t wbits (sdr_largePoolFree u)))
                   (to_size_t wbits (sdr_unusedSize u)))))).
  { reflexivity. }
  f_equal. unfold to_ulong, size_sub, size_add, to_size_t, wrap.
  rewrite Zmod_mod.
  rewrite <- (Zplus_mod (sdr_smallPoolFree u) (sdr_largePoolFree u)).
  rewrite <- Zplus_mod, <- Zminus_mod. reflexivity.
Qed.

Lemma sdr_aggregate_max_heap_used (u : SdrUsageSummary) :
  PyDict_GetItemString (sdr_aggregate wbits u) "max_heap_used"
  = Some (wrap wbits (sdr_heapSize u - sdr_unusedSize u)).
Proof.
  transitivity
    (Some (to_ulong wbits
             (size_sub wbits (to_size_t wbits (sdr_heapSize u))
                (to_size_t wbits (sdr_unusedSize u))))).
  { reflexivity. }
  f_equal. unfold to_ulong, size_sub, to_size_t, wrap.
  rewrite Zmod_mod, <- Zminus_mod. reflexivity.
Qed.

Lemma sdr_aggregate_heap_size (u : SdrUsageSummary) :
  PyDict_GetItemString (sdr_aggregate wbits u) "heap_size"
  = Some (wrap wbits (sdr_heapSize u)).
Proof.
  transitivity (Some (to_ulong wbits (to_size_t wbits (sdr_heapSize u)))).
  { reflexivity. }
  f_equal. unfold to_ulong, to_size_t, wrap. apply Zmod_mod.
Qed.

End Snapshots.

Lemma is_size_t_range (wbits z : Z) :
  is_size_t wbits z = true -> 0 <= z < 2 ^ wbits.
Proof.
  unfold is_size_t. intros H. apply andb_true_iff in H as [H1 H2].
  apply Z.leb_le in H1. apply Z.ltb_lt in H2. lia.
Qed.

Lemma sdr_heap_exact (wbits : Z) (N L : nat) (u : SdrUsageSummary) :
  sdr_usage_typed wbits N L u = true ->
  sdr_smallPoolFree u + sdr_largePoolFree u + sdr_unusedSize u
    <= sdr_heapSize u ->
  let H := sdr_heapSize u in
  let HA := sdr_unusedSize u in
  let SA := sdr_smallPoolFree u in
  let LA := sdr_largePoolFree u in
  wrap wbits (H - (SA + LA + HA)) = H - (SA + LA + HA) /\
  wrap wbits (H - HA) = H - HA /\
  wrap wbits H = H /\
  0 <= SA /\ 0 <= LA /\ 0 <= HA.
Proof.
  intros Hty Hsum. unfold sdr_usage_typed in Hty. split_typed Hty.
  repeat match goal with
         | X : is_size_t _ _ = true |- _ => apply is_size_t_range in X
         end.
  cbn zeta. repeat split; try lia; apply wrap_small; lia.
Qed.

(** ** Heap figures of the transactional reader *)

(** C1 as stated fails: on a summary of [size_t] fields with H = 1000,
    HA = 200, SA = 500 and LA = 400 the subtraction of line 120 wraps, and
    the record holds heap_used = 2 ^ 64 - 100, which is not
    H - (SA + LA + HA) = -100. *)
Lemma heap_used_is_not_the_difference_when_it_wraps :
  let u := Node64.sdr_summary 1000 200 500 400 in
  let r := Node64.sdr_call (Node64.node u true (-1) 0) "ion" in
  sdr_usage_typed Node64.wbits Node64.SMALL_SIZES Node64.LARGE_ORDERS u = true /\
  exists agg sp lp,
    fst r = PyTuple3 agg sp lp /\
    PyDict_GetItemString agg "heap_used" = Some (2 ^ 64 - 100) /\
    PyDict_GetItemString agg "heap_used"
      <> Some (sdr_heapSize u
               - (sdr_smallPoolFree u + sdr_largePoolFree u
                  + sdr_unusedSize u)).
Proof.
  cbv zeta. split; [vm_compute; reflexivity|].
  do 3 eexists. split; [vm_compute; reflexivity|].
  split; [reflexivity|].
  intros H. vm_compute in H. discriminate H.
Qed.

(** C1, amended.  Whenever [pyion_sdr_dump] returns a snapshot for a
    summary [u] of [size_t] fields with SA + LA + HA <= H, the aggregate
    record is a function of [u] alone and holds exactly
    heap_used = H - (SA + LA + HA) and max_heap_used = H - HA.  The call's
    last contacts with ION are the usage read, the end of the transaction
    and the release of the handle: the figures are worked out from the
    summary after the transaction has been closed. *)
Theorem sdr_dump_heap_figures
  (wbits WORD_SIZE : Z) (SMALL_SIZES LARGE_ORDERS : nat)
  (args : list PyObject) (w w' : World) (name : string) (sdr : Sdr)
  (agg : PyDictS) (sp lp : PyDictZ) :
  parse_tuple_s args = inr name ->
  ion_sdr_start_using (ion w) name = Some sdr ->
  pyion_sdr_dump wbits WORD_SIZE SMALL_SIZES LARGE_ORDERS args w
    = (PyTuple3 agg sp lp, w') ->
  let u := ion_sdr_usage (ion w) sdr in
  let H := sdr_heapSize u in
  let HA := sdr_unusedSize u in
  let SA := sdr_smallPoolFree u in
  let LA := sdr_largePoolFree u in
  sdr_usage_typed wbits SMALL_SIZES LARGE_ORDERS u = true ->
  SA + LA + HA <= H ->
  agg = sdr_aggregate wbits u /\
  events_of (pyion_sdr_dump wbits WORD_SIZE SMALL_SIZES LARGE_ORDERS args) w
    = [Ev_sdr_initialize; Ev_sdr_start_using name (Some sdr);
       Ev_sdr_begin_xn sdr true; Ev_sdr_usage sdr;
       Ev_sdr_end_xn sdr (ion_sdr_end_xn (ion w) sdr); Ev_sdr_stop_using sdr] /\
  PyDict_GetItemString agg "heap_used" = Some (H - (SA + LA + HA)) /\
  PyDict_GetItemString agg "max_heap_used" = Some (H - HA).
Proof.
  intros Hparse Hattach Hrun. cbn zeta. intros Hty Hsum.
  pose proof Hrun as Hinv.
  apply sdr_dump_snapshot in Hinv
    as (name' & sdr' & Hp & Ha & _ & _ & -> & _ & _ & ->).
  rewrite Hparse in Hp. injection Hp as <-.
  rewrite Hattach in Ha. injection Ha as <-.
  split; [reflexivity|]. split.
  { unfold events_of. rewrite Hrun. cbn [snd after log].
    rewrite skipn_app, Nat.sub_diag, skipn_all. reflexivity. }
  rewrite sdr_aggregate_heap_used, sdr_aggregate_max_heap_used.
  destruct (sdr_heap_exact _ _ _ _ Hty Hsum) as (E1 & E2 & _).
  now rewrite E1, E2.
Qed.

(** The worked example of the spec on a 64-bit node: H = 1,000,000,
    HA = 100,000, SA = 50,000, LA = 20,000. *)
Lemma sdr_dump_heap_figures_example :
  let r := Node64.sdr_call Node64.healthy "ion" in
  r = (PyTuple3 (ret_agg (fst r)) (ret_sp (fst r)) (ret_lp (fst r)), snd r) /\
  sdr_usage_typed Node64.wbits Node64.SMALL_SIZES Node64.LARGE_ORDERS
    Node64.example_summary = true /\
  50000 + 20000 + 100000 <= 1000000 /\
  PyDict_GetItemString (ret_agg (fst r)) "heap_used" = Some 830000 /\
  PyDict_GetItemString (ret_agg (fst r)) "max_heap_used" = Some 900000.
Proof.
  intro r.
  assert (Hrun : r = (PyTuple3 (ret_agg (fst r)) (ret_sp (fst r))
                        (ret_lp (fst r)), snd r))
    by (vm_compute; reflexivity).
  assert (Hty : sdr_usage_typed Node64.wbits Node64.SMALL_SIZES
                  Node64.LARGE_ORDERS Node64.example_summary = true)
    by (vm_compute; reflexivity).
  assert (Hsum : 50000 + 20000 + 100000 <= 1000000) by lia.
  split; [exact Hrun|]. split; [exact Hty|]. split; [exact Hsum|].
  destruct (sdr_dump_heap_figures Node64.wbits Node64.WORD_SIZE
              Node64.SMALL_SIZES Node64.LARGE_ORDERS [PyStr "ion"]
              (Node64.fresh Node64.healthy) (snd r) "ion" 1%nat _ _ _
              eq_refl eq_refl Hrun Hty Hsum) as (_ & _ & Hu & Hm).
  split; [exact Hu | exact Hm].
Defined.

(** C3 as stated fails: a summary whose free and unused bytes add up to
    more than the heap size makes the [size_t] subtraction wrap, and
    heap_used exceeds max_heap_used. *)
Lemma heap_order_fails_when_subtraction_wraps :
  let r :=
    Node64.sdr_call
      (Node64.node (Node64.sdr_summary 1000 200 500 400) true (-1) 0) "ion" in
  exists agg sp lp,
    fst r = PyTuple3 agg sp lp /\
    PyDict_GetItemString agg "heap_size" = Some 1000 /\
    PyDict_GetItemString agg "max_heap_used" = Some 800 /\
    PyDict_GetItemString agg "heap_used" = Some (2 ^ 64 - 100) /\
    ~ aggregates_ordered agg.
Proof.
  cbv zeta. do 3 eexists. split; [vm_compute; reflexivity|].
  split; [reflexivity|]. split; [reflexivity|]. split; [reflexivity|].
  intros (used & max_used & size & Hu & Hm & _ & Hle).
  vm_compute in Hu. vm_compute in Hm.
  injection Hu as <-. injection Hm as <-. lia.
Qed.

(** C3, amended.  When the summary read satisfies SA + LA + HA <= H, the
    record returned by [pyion_sdr_dump] has
    heap_used <= max_heap_used <= heap_size. *)
Theorem sdr_dump_heap_order
  (wbits WORD_SIZE : Z) (SMALL_SIZES LARGE_ORDERS : nat)
  (args : list PyObject) (w w' : World) (name : string) (sdr : Sdr)
  (agg : PyDictS) (sp lp : PyDictZ) :
  parse_tuple_s args = inr name ->
  ion_sdr_start_using (ion w) name = Some sdr ->
  pyion_sdr_dump wbits WORD_SIZE SMALL_SIZES LARGE_ORDERS args w
    = (PyTuple3 agg sp lp, w') ->
  let u := ion_sdr_usage (ion w) sdr in
  sdr_usage_typed wbits SMALL_SIZES LARGE_ORDERS u = true ->
  sdr_smallPoolFree u + sdr_largePoolFree u + sdr_unusedSize u
    <= sdr_heapSize u ->
  aggregates_ordered agg.
Proof.
  intros Hparse Hattach Hrun u Hty Hsum.
  apply sdr_dump_snapshot in Hrun
    as (name' & sdr' & Hp & Ha & _ & _ & -> & _ & _ & _).
  rewrite Hparse in Hp. injection Hp as <-.
  rewrite Hattach in Ha. injection Ha as <-.
  destruct (sdr_heap_exact _ _ _ _ Hty Hsum) as (E1 & E2 & E3 & ? & ? & ?).
  unfold aggregates_ordered.
  exists (sdr_heapSize u
          - (sdr_smallPoolFree u + sdr_largePoolFree u + sdr_unusedSize u)),
    (sdr_heapSize u - sdr_unusedSize u), (sdr_heapSize u).
  rewrite sdr_aggregate_heap_used, sdr_aggregate_max_heap_used,
    sdr_aggregate_heap_size.
  fold u. rewrite E1, E2, E3.
  repeat split; lia.
Qed.

Lemma sdr_dump_heap_order_example :
  let r := Node64.sdr_call Node64.healthy "ion" in
  r = (PyTuple3 (ret_agg (fst r)) (ret_sp (fst r)) (ret_lp (fst r)), snd r) /\
  aggregates_ordered (ret_agg (fst r)).
Proof.
  intro r.
  assert (Hrun : r = (PyTuple3 (ret_agg (fst r)) (ret_sp (fst r))
                        (ret_lp (fst r)), snd r))
    by (vm_compute; reflexivity).
  split; [exact Hrun|].
  apply (sdr_dump_heap_order Node64.wbits Node64.WORD_SIZE
           Node64.SMALL_SIZES Node64.LARGE_ORDERS [PyStr "ion"]
           (Node64.fresh Node64.healthy) (snd r) "ion" 1%nat _ _ _
           eq_refl eq_refl Hrun); [vm_compute; reflexivity | cbn; lia].
Defined.

(** ** Release of the SDR handle *)

(** C2.  The code at two failing inputs: on a node that attaches "ion" but
    refuses the transaction, and on one where [sdr_end_xn] returns 0, the
    call returns [NULL] right after the failing call; [sdr_stop_using] is
    never called and the handle obtained from [sdr_start_using] is still
    held when the call returns.  On the same node with the transaction
    granted and ended, the snapshot path does give the handle back. *)
Theorem sdr_dump_keeps_handle_when_xn_fails :
  let refused :=
    Node64.sdr_call (Node64.node Node64.example_summary false (-1) 0) "ion" in
  let end_zero :=
    Node64.sdr_call (Node64.node Node64.example_summary true 0 0) "ion" in
  let snapshot := Node64.sdr_call Node64.healthy "ion" in
  (fst snapshot <> PyNULL /\ handles_held (log (snd snapshot)) = []) /\
  (fst refused = PyNULL /\
   log (snd refused)
     = [Ev_sdr_initialize; Ev_sdr_start_using "ion" (Some 1%nat);
        Ev_sdr_begin_xn 1%nat false] /\
   handles_held (log (snd refused)) = [1%nat]) /\
  (fst end_zero = PyNULL /\
   log (snd end_zero)
     = [Ev_sdr_initialize; Ev_sdr_start_using "ion" (Some 1%nat);
        Ev_sdr_begin_xn 1%nat true; Ev_sdr_usage 1%nat;
        Ev_sdr_end_xn 1%nat 0] /\
   handles_held (log (snd end_zero)) = [1%nat]).
Proof.
  cbv zeta. split; [split|split; [split; [|split]|split; [|split]]].
  - vm_compute. discriminate.
  - vm_compute. reflexivity.
  - vm_compute. reflexivity.
  - vm_compute. reflexivity.
  - vm_compute. reflexivity.
  - vm_compute. reflexivity.
  - vm_compute. reflexivity.
  - vm_compute. reflexivity.
Qed.

(** ** Field names of the direct reader *)

(** C4 as stated fails: the record returned by [pyion_psm_dump] has no
    field named partition_size or partition_avail; the partition figures
    are stored under wm_size and wm_avail. *)
Lemma psm_dump_has_no_partition_size_field :
  let r := Node64.psm_call Node64.healthy 65281 in
  exists agg sp lp,
    fst r = PyTuple3 agg sp lp /\
    PyDict_GetItemString agg "partition_size" = None /\
    PyDict_GetItemString agg "partition_avail" = None /\
    PyDict_GetItemString agg "wm_size" = Some 1000000 /\
    PyDict_GetItemString agg "wm_avail" = Some 791104.
Proof.
  cbv zeta. do 3 eexists. split; [vm_compute; reflexivity|].
  repeat split; reflexivity.
Qed.

(** C4, amended.  Every snapshot returned by [pyion_psm_dump] is a record
    with exactly the fields small_pool_avail, small_pool_used,
    small_pool_total, large_pool_avail, large_pool_used, large_pool_total,
    wm_size and wm_avail, in this order, wm_size and wm_avail holding the
    partition size and the unused size of the summary read, alongside the
    two histograms built from its counter arrays. *)
Theorem psm_dump_field_names
  (wbits WORD_SIZE : Z) (SMALL_SIZES LARGE_ORDERS : nat)
  (args : list PyObject) (w w' : World)
  (memKey memSize : Z) (partitionName : string)
  (agg : PyDictS) (sp lp : PyDictZ) :
  parse_tuple_iLs args = inr (memKey, memSize, partitionName) ->
  pyion_psm_dump wbits WORD_SIZE SMALL_SIZES LARGE_ORDERS args w
    = (PyTuple3 agg sp lp, w') ->
  let u :=
    ion_psm_usage (ion w)
      (snd (ion_memmgr_open (ion w) memKey memSize partitionName)) in
  Dict.keys agg
    = ["small_pool_avail"; "small_pool_used"; "small_pool_total";
       "large_pool_avail"; "large_pool_used"; "large_pool_total";
       "wm_size"; "wm_avail"]%string /\
  PyDict_GetItemString agg "wm_size"
    = Some (psm_partitionSize u mod 2 ^ wbits) /\
  PyDict_GetItemString agg "wm_avail"
    = Some (psm_unusedSize u mod 2 ^ wbits) /\
  (psm_usage_typed wbits SMALL_SIZES LARGE_ORDERS u = true ->
   PyDict_GetItemString agg "wm_size" = Some (psm_partitionSize u) /\
   PyDict_GetItemString agg "wm_avail" = Some (psm_unusedSize u)) /\
  sp = small_histogram wbits WORD_SIZE SMALL_SIZES
         (psm_smallPoolFreeBlockCount u) /\
  lp = large_histogram wbits WORD_SIZE LARGE_ORDERS
         (psm_largePoolFreeBlockCount u).
Proof.
  intros Hparse Hrun u.
  apply psm_dump_snapshot in Hrun
    as (k & s & n & Hp & _ & _ & -> & -> & -> & _).
  rewrite Hparse in Hp. injection Hp as <- <- <-. fold u.
  assert (Hsize : PyDict_GetItemString (psm_aggregate wbits u) "wm_size"
                  = Some (psm_partitionSize u mod 2 ^ wbits)).
  { transitivity
      (Some (to_ulong wbits (to_size_t wbits (psm_partitionSize u))));
      [reflexivity|].
    unfold to_ulong, to_size_t, wrap. now rewrite Zmod_mod. }
  assert (Havail : PyDict_GetItemString (psm_aggregate wbits u) "wm_avail"
                   = Some (psm_unusedSize u mod 2 ^ wbits)).
  { transitivity
      (Some (to_ulong wbits (to_size_t wbits (psm_unusedSize u))));
      [reflexivity|].
    unfold to_ulong, to_size_t, wrap. now rewrite Zmod_mod. }
  split; [reflexivity|]. split; [exact Hsize|]. split; [exact Havail|].
  split; [|split; reflexivity].
  intros Hty. rewrite Hsize, Havail.
  unfold psm_usage_typed in Hty. split_typed Hty.
  repeat match goal with
         | X : is_size_t _ _ = true |- _ => apply is_size_t_range in X
         end.
  split; f_equal; apply Z.mod_small; lia.
Qed.

Lemma psm_dump_field_names_example :
  let r := Node64.psm_call Node64.healthy 65281 in
  r = (PyTuple3 (ret_agg (fst r)) (ret_sp (fst r)) (ret_lp (fst r)), snd r) /\
  Dict.keys (ret_agg (fst r))
    = ["small_pool_avail"; "small_pool_used"; "small_pool_total";
       "large_pool_avail"; "large_pool_used"; "large_pool_total";
       "wm_size"; "wm_avail"]%string /\
  PyDict_GetItemString (ret_agg (fst r)) "wm_size" = Some 1000000 /\
  PyDict_GetItemString (ret_agg (fst r)) "wm_avail" = Some 791104.
Proof.
  intro r.
  assert (Hrun : r = (PyTuple3 (ret_agg (fst r)) (ret_sp (fst r))
                        (ret_lp (fst r)), snd r))
    by (vm_compute; reflexivity).
  split; [exact Hrun|].
  destruct (psm_dump_field_names Node64.wbits Node64.WORD_SIZE
              Node64.SMALL_SIZES Node64.LARGE_ORDERS
              [PyLong 65281; PyLong 1000000; PyStr "ionwm"]
              (Node64.fresh Node64.healthy) (snd r) 65281 1000000 "ionwm"
              _ _ _ eq_refl Hrun) as (Hkeys & _ & _ & Hexact & _).
  split; [exact Hkeys|].
  apply Hexact. vm_compute. reflexivity.
Defined.

(** ** The size-class histograms *)

Lemma nth_error_tabulate {A : Type} (f : nat -> A) (n i : nat) :
  (i < n)%nat -> nth_error (map f (seq 0 n)) i = Some (f i).
Proof.
  intros Hi. rewrite nth_error_map, nth_error_seq.
  destruct (Nat.ltb_spec i n); [reflexivity|lia].
Qed.

Lemma histogram_of_tabulate (n : nat) (key : nat -> Z) (counts : list Z) :
  (forall i j, (i < j)%nat -> key i < key j) ->
  histogram_of n key counts
    (map (fun i => (key i, nth i counts 0)) (seq 0 n)).
Proof.
  intros Hmono. repeat split.
  - now rewrite length_map, length_seq.
  - intros i Hi. now rewrite nth_error_tabulate.
  - intros i Hi.
    apply (get_item_tabulate key (fun i => nth i counts 0)); [|assumption].
    intros a b Hab. apply Z.lt_neq, Hmono. lia.
Qed.

(** C5.  Provided the build constants fit the machine word, in every
    snapshot returned by [pyion_sdr_dump] or by [pyion_psm_dump] the key
    of the small-pool histogram at index [i] is [WORD_SIZE * (i + 1)] for
    [i < SMALL_SIZES], the key of the large-pool histogram at index [i] is
    [WORD_SIZE * 2 ^ (i + 1)] for [i < LARGE_ORDERS], and the keys of each
    histogram are strictly increasing. *)
Theorem histogram_keys_by_index
  (wbits WORD_SIZE : Z) (SMALL_SIZES LARGE_ORDERS : nat)
  (args : list PyObject) (w w' : World) (agg : PyDictS) (sp lp : PyDictZ) :
  constants_fit wbits WORD_SIZE SMALL_SIZES LARGE_ORDERS ->
  pyion_sdr_dump wbits WORD_SIZE SMALL_SIZES LARGE_ORDERS args w
    = (PyTuple3 agg sp lp, w') \/
  pyion_psm_dump wbits WORD_SIZE SMALL_SIZES LARGE_ORDERS args w
    = (PyTuple3 agg sp lp, w') ->
  (forall i, (i < SMALL_SIZES)%nat ->
     nth_error (Dict.keys sp) i = Some (WORD_SIZE * (Z.of_nat i + 1))) /\
  (forall i, (i < LARGE_ORDERS)%nat ->
     nth_error (Dict.keys lp) i = Some (WORD_SIZE * 2 ^ (Z.of_nat i + 1))) /\
  List.length (Dict.keys sp) = SMALL_SIZES /\
  List.length (Dict.keys lp) = LARGE_ORDERS /\
  StronglySorted Z.lt (Dict.keys sp) /\
  StronglySorted Z.lt (Dict.keys lp).
Proof.
  intros Hfit Hrun.
  assert (Hkeys :
    Dict.keys sp = map (small_key WORD_SIZE) (seq 0 SMALL_SIZES) /\
    Dict.keys lp = map (large_key WORD_SIZE) (seq 0 LARGE_ORDERS)).
  { destruct Hrun as [Hrun|Hrun].
    - apply sdr_dump_snapshot in Hrun
        as (? & ? & _ & _ & _ & _ & _ & -> & -> & _).
      split;
        [now apply (small_histogram_keys _ _ _ LARGE_ORDERS)
        |now apply (large_histogram_keys _ _ SMALL_SIZES)].
    - apply psm_dump_snapshot in Hrun
        as (? & ? & ? & _ & _ & _ & _ & -> & -> & _).
      split;
        [now apply (small_histogram_keys _ _ _ LARGE_ORDERS)
        |now apply (large_histogram_keys _ _ SMALL_SIZES)]. }
  destruct Hkeys as [-> ->]. destruct Hfit as (HW & _ & _).
  repeat split.
  - intros i Hi. now rewrite nth_error_tabulate.
  - intros i Hi. now rewrite nth_error_tabulate.
  - now rewrite length_map, length_seq.
  - now rewrite length_map, length_seq.
  - apply sorted_tabulate. intros i j Hij. now apply small_key_mono.
  - apply sorted_tabulate. intros i j Hij. now apply large_key_mono.
Qed.

Lemma constants_fit_node64 :
  constants_fit Node64.wbits Node64.WORD_SIZE Node64.SMALL_SIZES
    Node64.LARGE_ORDERS.
Proof.
  unfold constants_fit. repeat split; vm_compute; reflexivity.
Defined.

Lemma ion_typed_node64 (u : SdrUsageSummary) (b : bool) (e i : Z) :
  sdr_usage_typed Node64.wbits Node64.SMALL_SIZES Node64.LARGE_ORDERS u = true ->
  ion_typed Node64.wbits Node64.SMALL_SIZES Node64.LARGE_ORDERS
    (Node64.node u b e i).
Proof.
  intros Hu. split; intros h; [exact Hu|vm_compute; reflexivity].
Defined.

Lemma histogram_keys_by_index_example :
  let r := Node64.sdr_call Node64.healthy "ion" in
  let q := Node64.psm_call Node64.healthy 65281 in
  (r = (PyTuple3 (ret_agg (fst r)) (ret_sp (fst r)) (ret_lp (fst r)), snd r) /\
   nth_error (Dict.keys (ret_sp (fst r))) 2 = Some 24 /\
   nth_error (Dict.keys (ret_lp (fst r))) 6 = Some 1024) /\
  (q = (PyTuple3 (ret_agg (fst q)) (ret_sp (fst q)) (ret_lp (fst q)), snd q) /\
   nth_error (Dict.keys (ret_sp (fst q))) 63 = Some 512 /\
   nth_error (Dict.keys (ret_lp (fst q))) 59 = Some (2 ^ 63)).
Proof.
  intros r q.
  assert (Hr : r = (PyTuple3 (ret_agg (fst r)) (ret_sp (fst r))
                      (ret_lp (fst r)), snd r))
    by (vm_compute; reflexivity).
  assert (Hq : q = (PyTuple3 (ret_agg (fst q)) (ret_sp (fst q))
                      (ret_lp (fst q)), snd q))
    by (vm_compute; reflexivity).
  split.
  - split; [exact Hr|].
    destruct (histogram_keys_by_index Node64.wbits Node64.WORD_SIZE
                Node64.SMALL_SIZES Node64.LARGE_ORDERS [PyStr "ion"]
                (Node64.fresh Node64.healthy) (snd r) _ _ _
                constants_fit_node64 (or_introl Hr)) as (Hs & Hl & _).
    split; [apply (Hs 2%nat) | apply (Hl 6%nat)]; vm_compute; lia.
  - split; [exact Hq|].
    destruct (histogram_keys_by_index Node64.wbits Node64.WORD_SIZE
                Node64.SMALL_SIZES Node64.LARGE_ORDERS
                [PyLong 65281; PyLong 1000000; PyStr "ionwm"]
                (Node64.fresh Node64.healthy) (snd q) _ _ _
                constants_fit_node64 (or_intror Hq)) as (Hs & Hl & _).
    split; [apply (Hs 63%nat) | apply (Hl 59%nat)]; vm_compute; lia.
Defined.

(** C6.  Provided the build constants fit the machine word and ION hands
    back summaries typed as its headers declare them, every snapshot
    returned by either reader has a small-pool histogram of exactly
    [SMALL_SIZES] entries and a large-pool histogram of exactly
    [LARGE_ORDERS] entries, and the value stored under the key of index
    [i] is entry [i] of the counter array read, unchanged. *)
Theorem histograms_complete_and_verbatim
  (wbits WORD_SIZE : Z) (SMALL_SIZES LARGE_ORDERS : nat) (w : World) :
  constants_fit wbits WORD_SIZE SMALL_SIZES LARGE_ORDERS ->
  ion_typed wbits SMALL_SIZES LARGE_ORDERS (ion w) ->
  (forall args w' name sdr agg sp lp,
     parse_tuple_s args = inr name ->
     ion_sdr_start_using (ion w) name = Some sdr ->
     pyion_sdr_dump wbits WORD_SIZE SMALL_SIZES LARGE_ORDERS args w
       = (PyTuple3 agg sp lp, w') ->
     let u := ion_sdr_usage (ion w) sdr in
     histogram_of SMALL_SIZES (small_key WORD_SIZE)
       (sdr_smallPoolFreeBlockCount u) sp /\
     histogram_of LARGE_ORDERS (large_key WORD_SIZE)
       (sdr_largePoolFreeBlockCount u) lp) /\
  (forall args w' memKey memSize partitionName agg sp lp,
     parse_tuple_iLs args = inr (memKey, memSize, partitionName) ->
     pyion_psm_dump wbits WORD_SIZE SMALL_SIZES LARGE_ORDERS args w
       = (PyTuple3 agg sp lp, w') ->
     let u :=
       ion_psm_usage (ion w)
         (snd (ion_memmgr_open (ion w) memKey memSize partitionName)) in
     histogram_of SMALL_SIZES (small_key WORD_SIZE)
       (psm_smallPoolFreeBlockCount u) sp /\
     histogram_of LARGE_ORDERS (large_key WORD_SIZE)
       (psm_largePoolFreeBlockCount u) lp).
Proof.
  intros Hfit [Hsdr Hpsm].
  assert (HW : 0 < WORD_SIZE) by apply Hfit.
  split.
  - intros args w' name sdr agg sp lp Hparse Hattach Hrun u.
    apply sdr_dump_snapshot in Hrun
      as (name' & sdr' & Hp & Ha & _ & _ & _ & -> & -> & _).
    rewrite Hparse in Hp. injection Hp as <-.
    rewrite Hattach in Ha. injection Ha as <-. fold u.
    pose proof (Hsdr sdr) as Hty. fold u in Hty.
    unfold sdr_usage_typed in Hty. split_typed Hty.
    repeat match goal with
           | X : Nat.eqb _ _ = true |- _ => apply Nat.eqb_eq in X
           end.
    rewrite (small_histogram_exact wbits WORD_SIZE SMALL_SIZES LARGE_ORDERS),
      (large_histogram_exact wbits WORD_SIZE SMALL_SIZES LARGE_ORDERS)
      by assumption.
    split; apply histogram_of_tabulate; intros i j Hij;
      [now apply small_key_mono | now apply large_key_mono].
  - intros args w' memKey memSize partitionName agg sp lp Hparse Hrun u.
    apply psm_dump_snapshot in Hrun
      as (k & s & n & Hp & _ & _ & _ & -> & -> & _).
    rewrite Hparse in Hp. injection Hp as <- <- <-. fold u.
    pose proof (Hpsm (snd (ion_memmgr_open (ion w) memKey memSize
                             partitionName))) as Hty.
    fold u in Hty.
    unfold psm_usage_typed in Hty. split_typed Hty.
    repeat match goal with
           | X : Nat.eqb _ _ = true |- _ => apply Nat.eqb_eq in X
           end.
    rewrite (small_histogram_exact wbits WORD_SIZE SMALL_SIZES LARGE_ORDERS),
      (large_histogram_exact wbits WORD_SIZE SMALL_SIZES LARGE_ORDERS)
      by assumption.
    split; apply histogram_of_tabulate; intros i j Hij;
      [now apply small_key_mono | now apply large_key_mono].
Qed.

Lemma histograms_complete_and_verbatim_example :
  let r := Node64.sdr_call Node64.healthy "ion" in
  let q := Node64.psm_call Node64.healthy 65281 in
  (r = (PyTuple3 (ret_agg (fst r)) (ret_sp (fst r)) (ret_lp (fst r)), snd r) /\
   List.length (ret_sp (fst r)) = 64%nat /\
   List.length (ret_lp (fst r)) = 60%nat /\
   PyDict_GetItem (ret_sp (fst r)) 24 = Some 7 /\
   PyDict_GetItem (ret_lp (fst r)) 1024 = Some 2) /\
  (q = (PyTuple3 (ret_agg (fst q)) (ret_sp (fst q)) (ret_lp (fst q)), snd q) /\
   List.length (ret_sp (fst q)) = 64%nat /\
   List.length (ret_lp (fst q)) = 60%nat /\
   PyDict_GetItem (ret_sp (fst q)) 16 = Some 5 /\
   PyDict_GetItem (ret_lp (fst q)) 8192 = Some 4).
Proof.
  intros r q.
  assert (Hr : r = (PyTuple3 (ret_agg (fst r)) (ret_sp (fst r))
                      (ret_lp (fst r)), snd r))
    by (vm_compute; reflexivity).
  assert (Hq : q = (PyTuple3 (ret_agg (fst q)) (ret_sp (fst q))
                      (ret_lp (fst q)), snd q))
    by (vm_compute; reflexivity).
  assert (Hty : ion_typed Node64.wbits Node64.SMALL_SIZES Node64.LARGE_ORDERS
                  Node64.healthy)
    by (apply ion_typed_node64; vm_compute; reflexivity).
  destruct (histograms_complete_and_verbatim Node64.wbits Node64.WORD_SIZE
              Node64.SMALL_SIZES Node64.LARGE_ORDERS
              (Node64.fresh Node64.healthy) constants_fit_node64 Hty)
    as [Hsdr Hpsm].
  split.
  - split; [exact Hr|].
    destruct (Hsdr [PyStr "ion"] (snd r) "ion"%string 1%nat _ _ _
                eq_refl eq_refl Hr)
      as [(Hn & _ & Hs) (Hm & _ & Hl)].
    split; [exact Hn|]. split; [exact Hm|].
    split; [apply (Hs 2%nat) | apply (Hl 6%nat)]; vm_compute; lia.
  - split; [exact Hq|].
    destruct (Hpsm [PyLong 65281; PyLong 1000000; PyStr "ionwm"] (snd q)
                65281 1000000 "ionwm"%string _ _ _ eq_refl Hq)
      as [(Hn & _ & Hs) (Hm & _ & Hl)].
    split; [exact Hn|]. split; [exact Hm|].
    split; [apply (Hs 1%nat) | apply (Hl 9%nat)]; vm_compute; lia.
Defined.

(** C10.  A snapshot returned by [pyion_sdr_dump] and a snapshot returned
    by [pyion_psm_dump] built with the same constants carry the same
    small-pool keys and the same large-pool keys, whatever the nodes, the
    arguments and the counters read. *)
Theorem readers_share_size_classes
  (wbits WORD_SIZE : Z) (SMALL_SIZES LARGE_ORDERS : nat)
  (args1 args2 : list PyObject) (w1 w1' w2 w2' : World)
  (agg1 agg2 : PyDictS) (sp1 lp1 sp2 lp2 : PyDictZ) :
  pyion_sdr_dump wbits WORD_SIZE SMALL_SIZES LARGE_ORDERS args1 w1
    = (PyTuple3 agg1 sp1 lp1, w1') ->
  pyion_psm_dump wbits WORD_SIZE SMALL_SIZES LARGE_ORDERS args2 w2
    = (PyTuple3 agg2 sp2 lp2, w2') ->
  Dict.keys sp1 = Dict.keys sp2 /\ Dict.keys lp1 = Dict.keys lp2.
Proof.
  intros Hsdr Hpsm.
  apply sdr_dump_snapshot in Hsdr as (? & ? & _ & _ & _ & _ & _ & -> & -> & _).
  apply psm_dump_snapshot in Hpsm as (? & ? & ? & _ & _ & _ & _ & -> & -> & _).
  unfold small_histogram, large_histogram. split.
  - now apply small_loop_keys.
  - now apply large_loop_keys.
Qed.

Lemma readers_share_size_classes_example :
  let r := Node64.sdr_call Node64.healthy "ion" in
  let q := Node64.psm_call Node64.healthy 65281 in
  r = (PyTuple3 (ret_agg (fst r)) (ret_sp (fst r)) (ret_lp (fst r)), snd r) /\
  q = (PyTuple3 (ret_agg (fst q)) (ret_sp (fst q)) (ret_lp (fst q)), snd q) /\
  Dict.keys (ret_sp (fst r)) = Dict.keys (ret_sp (fst q)) /\
  Dict.keys (ret_lp (fst r)) = Dict.keys (ret_lp (fst q)).
Proof.
  intros r q.
  assert (Hr : r = (PyTuple3 (ret_agg (fst r)) (ret_sp (fst r))
                      (ret_lp (fst r)), snd r))
    by (vm_compute; reflexivity).
  assert (Hq : q = (PyTuple3 (ret_agg (fst q)) (ret_sp (fst q))
                      (ret_lp (fst q)), snd q))
    by (vm_compute; reflexivity).
  split; [exact Hr|]. split; [exact Hq|].
  exact (readers_share_size_classes Node64.wbits Node64.WORD_SIZE
           Node64.SMALL_SIZES Node64.LARGE_ORDERS _ _ _ _ _ _ _ _ _ _ _ _
           Hr Hq).
Defined.

(** ** Transaction bracketing *)

Lemma events_of_after {A : Type} (m : M A) (w : World) (r : A)
  (e : option (PyExcClass * string)) (evs : list event) :
  m w = (r, after w e evs) -> events_of m w = evs.
Proof.
  intros Hrun. unfold events_of. rewrite Hrun. cbn [snd after log].
  rewrite skipn_app, Nat.sub_diag, skipn_all. reflexivity.
Qed.



(** ** Failure signals *)

Lemma format_sdr_attach (name : string) :
  format "Could not attach to SDR with name '%s'." [FmtStr name]
  = ("Could not attach to SDR with name '" ++ name ++ "'.")%string.
Proof. reflexivity. Qed.

Lemma format_psm_attach (memKey : Z) :
  format "Can't attach to PSM with key '%i'." [FmtInt memKey]
  = ("Can't attach to PSM with key '" ++ decimal memKey ++ "'.")%string.
Proof. reflexivity. Qed.

(** C8.  Each failure signal of a collaborator ends the call at once: the
    failing call is the last one made (no retry), [NULL] is returned (no
    snapshot), and the pending exception names the failure.  A null handle
    from [sdr_start_using] and a negative result of [memmgr_open] raise
    the attach error with the SDR name, respectively the key, written
    into the message; a negative result of [sm_ipc_init] raises the IPC
    initialisation error; a refused transaction raises the transaction
    error. *)
Theorem failure_signals_are_terminal
  (wbits WORD_SIZE : Z) (SMALL_SIZES LARGE_ORDERS : nat) (w : World) :
  let sdr_dump := pyion_sdr_dump wbits WORD_SIZE SMALL_SIZES LARGE_ORDERS in
  let psm_dump := pyion_psm_dump wbits WORD_SIZE SMALL_SIZES LARGE_ORDERS in
  (forall args name,
     parse_tuple_s args = inr name ->
     ion_sdr_start_using (ion w) name = None ->
     fst (sdr_dump args w) = PyNULL /\
     pyerr (snd (sdr_dump args w))
       = Some (PyExc_MemoryError,
               ("Could not attach to SDR with name '" ++ name ++ "'.")%string) /\
     events_of (sdr_dump args) w
       = [Ev_sdr_initialize; Ev_sdr_start_using name None]) /\
  (forall args name sdr,
     parse_tuple_s args = inr name ->
     ion_sdr_start_using (ion w) name = Some sdr ->
     ion_sdr_begin_xn (ion w) sdr = false ->
     fst (sdr_dump args w) = PyNULL /\
     (exists msg,
        pyerr (snd (sdr_dump args w)) = Some (TransactionError, msg)) /\
     events_of (sdr_dump args) w
       = [Ev_sdr_initialize; Ev_sdr_start_using name (Some sdr);
          Ev_sdr_begin_xn sdr false]) /\
  (forall args memKey memSize partitionName,
     parse_tuple_iLs args = inr (memKey, memSize, partitionName) ->
     ion_sm_ipc_init (ion w) < 0 ->
     fst (psm_dump args w) = PyNULL /\
     pyerr (snd (psm_dump args w))
       = Some (PyExc_MemoryError, "IPC initialization failed."%string) /\
     events_of (psm_dump args) w = [Ev_sm_ipc_init (ion_sm_ipc_init (ion w))]) /\
  (forall args memKey memSize partitionName,
     parse_tuple_iLs args = inr (memKey, memSize, partitionName) ->
     0 <= ion_sm_ipc_init (ion w) ->
     fst (ion_memmgr_open (ion w) memKey memSize partitionName) < 0 ->
     fst (psm_dump args w) = PyNULL /\
     pyerr (snd (psm_dump args w))
       = Some (PyExc_MemoryError,
               ("Can't attach to PSM with key '" ++ decimal memKey ++ "'.")%string) /\
     events_of (psm_dump args) w
       = [Ev_sm_ipc_init (ion_sm_ipc_init (ion w));
          Ev_memmgr_open memKey memSize partitionName
            (fst (ion_memmgr_open (ion w) memKey memSize partitionName))]).
Proof.
  cbv zeta. split; [|split; [|split]].
  - intros args name Hparse Hattach.
    destruct (sdr_dump_path wbits WORD_SIZE SMALL_SIZES LARGE_ORDERS args w)
      as (r & e & evs & Hpath & Hrun).
    rewrite (events_of_after _ _ _ _ _ Hrun), Hrun. cbn [fst snd].
    destruct Hpath; same_inputs; try congruence.
    repeat split.
  - intros args name sdr Hparse Hattach Hbegin.
    destruct (sdr_dump_path wbits WORD_SIZE SMALL_SIZES LARGE_ORDERS args w)
      as (r & e & evs & Hpath & Hrun).
    rewrite (events_of_after _ _ _ _ _ Hrun), Hrun. cbn [fst snd].
    destruct Hpath; same_inputs; try congruence.
    repeat split. eexists. reflexivity.
  - intros args memKey memSize partitionName Hparse Hipc.
    destruct (psm_dump_path wbits WORD_SIZE SMALL_SIZES LARGE_ORDERS args w)
      as (r & e & evs & Hpath & Hrun).
    rewrite (events_of_after _ _ _ _ _ Hrun), Hrun. cbn [fst snd].
    destruct Hpath; same_inputs; try congruence; try lia.
    repeat split.
  - intros args memKey memSize partitionName Hparse Hipc Hopen.
    destruct (psm_dump_path wbits WORD_SIZE SMALL_SIZES LARGE_ORDERS args w)
      as (r & e & evs & Hpath & Hrun).
    rewrite (events_of_after _ _ _ _ _ Hrun), Hrun. cbn [fst snd].
    destruct Hpath; same_inputs; try congruence; try lia.
    repeat split.
Qed.

Lemma failure_signals_are_terminal_example :
  let no_sdr := Node64.sdr_call Node64.healthy "nope" in
  let no_xn :=
    Node64.sdr_call (Node64.node Node64.example_summary false (-1) 0) "ion" in
  let no_ipc :=
    Node64.psm_call (Node64.node Node64.example_summary true (-1) (-1)) 65281 in
  let no_psm := Node64.psm_call Node64.healthy 5 in
  (fst no_sdr = PyNULL /\
   pyerr (snd no_sdr)
     = Some (PyExc_MemoryError,
             "Could not attach to SDR with name 'nope'."%string)) /\
  (fst no_xn = PyNULL /\
   exists msg, pyerr (snd no_xn) = Some (TransactionError, msg)) /\
  (fst no_ipc = PyNULL /\
   pyerr (snd no_ipc)
     = Some (PyExc_MemoryError, "IPC initialization failed."%string)) /\
  (fst no_psm = PyNULL /\
   pyerr (snd no_psm)
     = Some (PyExc_MemoryError, "Can't attach to PSM with key '5'."%string)).
Proof.
  cbv zeta.
  pose proof (failure_signals_are_terminal Node64.wbits Node64.WORD_SIZE
                Node64.SMALL_SIZES Node64.LARGE_ORDERS) as F.
  cbv zeta in F.
  split; [|split; [|split]].
  - destruct (F (Node64.fresh Node64.healthy)) as (Ha & _).
    destruct (Ha [PyStr "nope"] "nope"%string eq_refl eq_refl) as (H1 & H2 & _).
    split; [exact H1 | exact H2].
  - destruct (F (Node64.fresh
                   (Node64.node Node64.example_summary false (-1) 0)))
      as (_ & Hx & _).
    destruct (Hx [PyStr "ion"] "ion"%string 1%nat eq_refl eq_refl eq_refl)
      as (H1 & H2 & _).
    split; [exact H1 | exact H2].
  - destruct (F (Node64.fresh
                   (Node64.node Node64.example_summary true (-1) (-1))))
      as (_ & _ & Hi & _).
    destruct (Hi [PyLong 65281; PyLong 1000000; PyStr "ionwm"]
                65281 1000000 "ionwm"%string eq_refl) as (H1 & H2 & _).
    { cbn. lia. }
    split; [exact H1 | exact H2].
  - destruct (F (Node64.fresh Node64.healthy)) as (_ & _ & _ & Ho).
    destruct (Ho [PyLong 5; PyLong 1000000; PyStr "ionwm"]
                5 1000000 "ionwm"%string eq_refl) as (H1 & H2 & _).
    { cbn. lia. }
    { cbn. lia. }
    split; [exact H1 | exact H2].
Defined.

(** ** Determinism *)

Section Determinism.

Variable wbits : Z.
Variable WORD_SIZE : Z.
Variable SMALL_SIZES : nat.
Variable LARGE_ORDERS : nat.

Local Abbreviation sdr_dump := (pyion_sdr_dump wbits WORD_SIZE SMALL_SIZES LARGE_ORDERS).
Local Abbreviation psm_dump := (pyion_psm_dump wbits WORD_SIZE SMALL_SIZES LARGE_ORDERS).

Lemma sdr_outcome_functional (i : Ion) (args : list PyObject) r1 e1 evs1 r2 e2 evs2 :
  sdr_outcome wbits WORD_SIZE SMALL_SIZES LARGE_ORDERS i args r1 e1 evs1 ->
  sdr_outcome wbits WORD_SIZE SMALL_SIZES LARGE_ORDERS i args r2 e2 evs2 ->
  r1 = r2 /\ e1 = e2 /\ evs1 = evs2.
Proof.
  intros H1 H2.
  destruct H1; destruct H2; same_inputs; try congruence; auto.
Qed.

Lemma psm_outcome_functional (i : Ion) (args : list PyObject) r1 e1 evs1 r2 e2 evs2 :
  psm_outcome wbits WORD_SIZE SMALL_SIZES LARGE_ORDERS i args r1 e1 evs1 ->
  psm_outcome wbits WORD_SIZE SMALL_SIZES LARGE_ORDERS i args r2 e2 evs2 ->
  r1 = r2 /\ e1 = e2 /\ evs1 = evs2.
Proof.
  intros H1 H2.
  destruct H1; destruct H2; same_inputs; try congruence; try lia; auto.
Qed.

Lemma sdr_dump_reads_ion_only (args : list PyObject) (w1 w2 : World) :
  ion w1 = ion w2 ->
  fst (sdr_dump args w1) = fst (sdr_dump args w2) /\
  ion (snd (sdr_dump args w1)) = ion w1.
Proof.
  intros Hion.
  destruct (sdr_dump_path wbits WORD_SIZE SMALL_SIZES LARGE_ORDERS args w1)
    as (r1 & e1 & evs1 & Hp1 & ->).
  destruct (sdr_dump_path wbits WORD_SIZE SMALL_SIZES LARGE_ORDERS args w2)
    as (r2 & e2 & evs2 & Hp2 & ->).
  rewrite <- Hion in Hp2.
  destruct (sdr_outcome_functional _ _ _ _ _ _ _ _ Hp1 Hp2) as (-> & _).
  split; reflexivity.
Qed.

Lemma psm_dump_reads_ion_only (args : list PyObject) (w1 w2 : World) :
  ion w1 = ion w2 ->
  fst (psm_dump args w1) = fst (psm_dump args w2) /\
  ion (snd (psm_dump args w1)) = ion w1.
Proof.
  intros Hion.
  destruct (psm_dump_path wbits WORD_SIZE SMALL_SIZES LARGE_ORDERS args w1)
    as (r1 & e1 & evs1 & Hp1 & ->).
  destruct (psm_dump_path wbits WORD_SIZE SMALL_SIZES LARGE_ORDERS args w2)
    as (r2 & e2 & evs2 & Hp2 & ->).
  rewrite <- Hion in Hp2.
  destruct (psm_outcome_functional _ _ _ _ _ _ _ _ Hp1 Hp2) as (-> & _).
  split; reflexivity.
Qed.

End Determinism.

(** C9.  The value returned by either function depends on the arguments
    and on the state of the ION node only, not on the exception or call
    history of the interpreter: two calls with the same arguments made
    while the node answers alike return the same value, and a call leaves
    the node's answers as it found them, so that a call repeated right
    after itself returns what the first one returned. *)
Theorem dumps_are_deterministic
  (wbits WORD_SIZE : Z) (SMALL_SIZES LARGE_ORDERS : nat)
  (args : list PyObject) (w1 w2 : World) :
  let sdr_dump := pyion_sdr_dump wbits WORD_SIZE SMALL_SIZES LARGE_ORDERS in
  let psm_dump := pyion_psm_dump wbits WORD_SIZE SMALL_SIZES LARGE_ORDERS in
  ion w1 = ion w2 ->
  (fst (sdr_dump args w1) = fst (sdr_dump args w2) /\
   fst (psm_dump args w1) = fst (psm_dump args w2)) /\
  (ion (snd (sdr_dump args w1)) = ion w1 /\
   ion (snd (psm_dump args w1)) = ion w1) /\
  (fst (sdr_dump args (snd (sdr_dump args w1))) = fst (sdr_dump args w1) /\
   fst (psm_dump args (snd (psm_dump args w1))) = fst (psm_dump args w1)).
Proof.
  cbv zeta. intros Hion.
  destruct (sdr_dump_reads_ion_only wbits WORD_SIZE SMALL_SIZES LARGE_ORDERS
              args w1 w2 Hion) as [Hs Hsi].
  destruct (psm_dump_reads_ion_only wbits WORD_SIZE SMALL_SIZES LARGE_ORDERS
              args w1 w2 Hion) as [Hp Hpi].
  repeat split; try assumption.
  - now apply sdr_dump_reads_ion_only.
  - now apply psm_dump_reads_ion_only.
Qed.

Lemma dumps_are_deterministic_example :
  let first := Node64.sdr_call Node64.healthy "ion" in
  let second :=
    pyion_sdr_dump Node64.wbits Node64.WORD_SIZE Node64.SMALL_SIZES
      Node64.LARGE_ORDERS [PyStr "ion"] (snd first) in
  ion (Node64.fresh Node64.healthy) = ion (snd first) /\
  fst first = fst second /\
  log (snd second) = log (snd first) ++ log (snd first).
Proof.
  intros first second.
  assert (Hion : ion (Node64.fresh Node64.healthy) = ion (snd first))
    by reflexivity.
  split; [exact Hion|].
  destruct (dumps_are_deterministic Node64.wbits Node64.WORD_SIZE
              Node64.SMALL_SIZES Node64.LARGE_ORDERS [PyStr "ion"]
              (Node64.fresh Node64.healthy) (snd first) Hion)
    as ((Hs & _) & _).
  split; [exact Hs|]. vm_compute. reflexivity.
Defined.

(** * Further properties of the two functions *)

(** ** Which arguments convert *)





Lemma parse_sum_cases {A : Type} (x : PyExcClass + A) :
  (exists c, x = inl c) \/ (exists a, x = inr a).
Proof.
  destruct x as [c|a]; [left; now exists c | right; now exists a].
Qed.





(** ** When a snapshot is returned *)

(** X3.  Called with a convertible name, [pyion_sdr_dump] returns a
    snapshot exactly when [sdr_start_using] yields a handle, the
    transaction on it is granted and [sdr_end_xn] returns a non-zero
    value; in every other case it returns [NULL]. *)
Theorem sdr_dump_snapshot_iff
  (wbits WORD_SIZE : Z) (SMALL_SIZES LARGE_ORDERS : nat)
  (args : list PyObject) (w : World) (name : string) :
  parse_tuple_s args = inr name ->
  let r := fst (pyion_sdr_dump wbits WORD_SIZE SMALL_SIZES LARGE_ORDERS args w) in
  (is_snapshot r = true <->
   exists sdr,
     ion_sdr_start_using (ion w) name = Some sdr /\
     ion_sdr_begin_xn (ion w) sdr = true /\
     ion_sdr_end_xn (ion w) sdr <> 0) /\
  (is_snapshot r = false <-> r = PyNULL).
Proof.
  intros Hparse.
  destruct (sdr_dump_path wbits WORD_SIZE SMALL_SIZES LARGE_ORDERS args w)
    as (r & e & evs & Hpath & Hrun).
  rewrite Hrun. cbn [fst].
  split.
  - destruct Hpath; same_inputs; try congruence; cbn [is_snapshot].
    all: split; [try discriminate | ].
    all: try (intros (sdr' & Ha & Hb & He); same_inputs; congruence).
    intros _. now exists sdr.
  - destruct r; cbn; split; congruence.
Qed.

Lemma sdr_dump_snapshot_iff_example :
  let ok := Node64.sdr_call Node64.healthy "ion" in
  let end0 :=
    Node64.sdr_call (Node64.node Node64.example_summary true 0 0) "ion" in
  is_snapshot (fst ok) = true /\ is_snapshot (fst end0) = false.
Proof.
  intros ok end0. split.
  - apply (proj1 (sdr_dump_snapshot_iff Node64.wbits Node64.WORD_SIZE
                    Node64.SMALL_SIZES Node64.LARGE_ORDERS [PyStr "ion"]
                    (Node64.fresh Node64.healthy) "ion" eq_refl)).
    exists 1%nat. repeat split. cbn. discriminate.
  - destruct (is_snapshot (fst end0)) eqn:E; [|reflexivity].
    apply (proj1 (sdr_dump_snapshot_iff Node64.wbits Node64.WORD_SIZE
                    Node64.SMALL_SIZES Node64.LARGE_ORDERS [PyStr "ion"]
                    (Node64.fresh
                       (Node64.node Node64.example_summary true 0 0))
                    "ion" eq_refl)) in E.
    destruct E as (sdr & _ & _ & He). now contradiction He.
Defined.

(** X4.  Called with convertible arguments, [pyion_psm_dump] returns a
    snapshot exactly when neither [sm_ipc_init] nor [memmgr_open] returns
    a negative value, zero counting as success; the key, size and name
    handed to [memmgr_open] are the converted arguments, and the summary
    is read from the partition that [memmgr_open] produced. *)
Theorem psm_dump_snapshot_iff
  (wbits WORD_SIZE : Z) (SMALL_SIZES LARGE_ORDERS : nat)
  (args : list PyObject) (w : World) (memKey memSize : Z)
  (partitionName : string) :
  parse_tuple_iLs args = inr (memKey, memSize, partitionName) ->
  let call := pyion_psm_dump wbits WORD_SIZE SMALL_SIZES LARGE_ORDERS args in
  let opened := ion_memmgr_open (ion w) memKey memSize partitionName in
  (is_snapshot (fst (call w)) = true <->
   0 <= ion_sm_ipc_init (ion w) /\ 0 <= fst opened) /\
  (is_snapshot (fst (call w)) = true ->
   events_of call w
   = [Ev_sm_ipc_init (ion_sm_ipc_init (ion w));
      Ev_memmgr_open memKey memSize partitionName (fst opened);
      Ev_psm_usage (snd opened)]).
Proof.
  intros Hparse. cbv zeta.
  destruct (psm_dump_path wbits WORD_SIZE SMALL_SIZES LARGE_ORDERS args w)
    as (r & e & evs & Hpath & Hrun).
  rewrite (events_of_after _ _ _ _ _ Hrun), Hrun. cbn [fst].
  destruct Hpath; same_inputs; try congruence; cbn [is_snapshot];
    (split; [split|]); try discriminate; try lia; auto.
Qed.

Lemma psm_dump_snapshot_iff_example :
  is_snapshot (fst (Node64.psm_call Node64.healthy 65281)) = true /\
  events_of
    (pyion_psm_dump Node64.wbits Node64.WORD_SIZE Node64.SMALL_SIZES
       Node64.LARGE_ORDERS [PyLong 65281; PyLong 1000000; PyStr "ionwm"])
    (Node64.fresh Node64.healthy)
  = [Ev_sm_ipc_init 0; Ev_memmgr_open 65281 1000000 "ionwm" 0;
     Ev_psm_usage 1%nat].
Proof.
  destruct (psm_dump_snapshot_iff Node64.wbits Node64.WORD_SIZE
              Node64.SMALL_SIZES Node64.LARGE_ORDERS
              [PyLong 65281; PyLong 1000000; PyStr "ionwm"]
              (Node64.fresh Node64.healthy) 65281 1000000 "ionwm" eq_refl)
    as [Hiff Hev].
  assert (Hs : is_snapshot (fst (Node64.psm_call Node64.healthy 65281)) = true).
  { apply Hiff. cbn. lia. }
  split; [exact Hs | exact (Hev Hs)].
Defined.

(** ** The handle, the exception and the collaborators *)

(** X5.  Once [sdr_start_using] has yielded a handle, [pyion_sdr_dump]
    gives it back exactly when it returns a snapshot: on every [NULL]
    return after a successful attach the handle is still held. *)
Theorem sdr_dump_releases_iff_snapshot
  (wbits WORD_SIZE : Z) (SMALL_SIZES LARGE_ORDERS : nat)
  (args : list PyObject) (w : World) (name : string) (sdr : Sdr) :
  parse_tuple_s args = inr name ->
  ion_sdr_start_using (ion w) name = Some sdr ->
  let call := pyion_sdr_dump wbits WORD_SIZE SMALL_SIZES LARGE_ORDERS args in
  (handles_held (events_of call w) = [] <-> is_snapshot (fst (call w)) = true) /\
  (handles_held (events_of call w) = [sdr] <-> fst (call w) = PyNULL).
Proof.
  intros Hparse Hattach. cbv zeta.
  destruct (sdr_dump_path wbits WORD_SIZE SMALL_SIZES LARGE_ORDERS args w)
    as (r & e & evs & Hpath & Hrun).
  rewrite (events_of_after _ _ _ _ _ Hrun), Hrun. cbn [fst].
  destruct Hpath; same_inputs; try congruence;
    cbn [handles_held fold_left track_handle remove_one is_snapshot];
    rewrite ?Nat.eqb_refl; repeat split; try discriminate; auto.
Qed.

Lemma sdr_dump_releases_iff_snapshot_example :
  let dump := pyion_sdr_dump Node64.wbits Node64.WORD_SIZE Node64.SMALL_SIZES
                Node64.LARGE_ORDERS [PyStr "ion"] in
  let refusing := Node64.fresh
                    (Node64.node Node64.example_summary false (-1) 0) in
  handles_held (events_of dump (Node64.fresh Node64.healthy)) = [] /\
  handles_held (events_of dump refusing) = [1%nat].
Proof.
  intros dump refusing. split.
  - apply (proj1 (sdr_dump_releases_iff_snapshot Node64.wbits Node64.WORD_SIZE
                    Node64.SMALL_SIZES Node64.LARGE_ORDERS [PyStr "ion"]
                    (Node64.fresh Node64.healthy) "ion" 1%nat
                    eq_refl eq_refl)).
    vm_compute. reflexivity.
  - apply (proj2 (sdr_dump_releases_iff_snapshot Node64.wbits Node64.WORD_SIZE
                    Node64.SMALL_SIZES Node64.LARGE_ORDERS [PyStr "ion"]
                    refusing "ion" 1%nat eq_refl eq_refl)).
    vm_compute. reflexivity.
Defined.

(** X6.  Entered with no exception pending, [pyion_sdr_dump] returns
    [NULL] without setting an exception in exactly one situation: the
    handle was obtained, the transaction was granted, and [sdr_end_xn]
    returned 0.  Every other [NULL] return comes with an exception. *)
Theorem sdr_dump_null_without_exception_iff
  (wbits WORD_SIZE : Z) (SMALL_SIZES LARGE_ORDERS : nat)
  (args : list PyObject) (w : World) :
  pyerr w = None ->
  let r := pyion_sdr_dump wbits WORD_SIZE SMALL_SIZES LARGE_ORDERS args w in
  (fst r = PyNULL /\ pyerr (snd r) = None) <->
  (exists name sdr,
     parse_tuple_s args = inr name /\
     ion_sdr_start_using (ion w) name = Some sdr /\
     ion_sdr_begin_xn (ion w) sdr = true /\
     ion_sdr_end_xn (ion w) sdr = 0).
Proof.
  intros Hclean. cbv zeta.
  destruct (sdr_dump_path wbits WORD_SIZE SMALL_SIZES LARGE_ORDERS args w)
    as (r & e & evs & Hpath & Hrun).
  rewrite Hrun. cbn [fst snd after pyerr].
  destruct Hpath; split;
    try (intros [? ?]; congruence);
    try (intros (name' & sdr' & Hp & Ha & Hb & He); same_inputs; congruence).
  - intros _. exists name, sdr. auto.
  - intros _. auto.
Qed.

Lemma sdr_dump_null_without_exception_iff_example :
  let r := Node64.sdr_call (Node64.node Node64.example_summary true 0 0) "ion" in
  fst r = PyNULL /\ pyerr (snd r) = None.
Proof.
  intro r.
  apply (proj2 (sdr_dump_null_without_exception_iff Node64.wbits
                  Node64.WORD_SIZE Node64.SMALL_SIZES Node64.LARGE_ORDERS
                  [PyStr "ion"]
                  (Node64.fresh (Node64.node Node64.example_summary true 0 0))
                  eq_refl)).
  exists "ion"%string, 1%nat. repeat split.
Defined.

(** X7.  Entered with no exception pending, [pyion_psm_dump] returns
    [NULL] exactly when it leaves an exception pending; a snapshot is
    never returned together with an exception. *)
Theorem psm_dump_null_iff_exception
  (wbits WORD_SIZE : Z) (SMALL_SIZES LARGE_ORDERS : nat)
  (args : list PyObject) (w : World) :
  pyerr w = None ->
  let r := pyion_psm_dump wbits WORD_SIZE SMALL_SIZES LARGE_ORDERS args w in
  (fst r = PyNULL <-> pyerr (snd r) <> None) /\
  (is_snapshot (fst r) = true <-> pyerr (snd r) = None).
Proof.
  intros Hclean. cbv zeta.
  destruct (psm_dump_path wbits WORD_SIZE SMALL_SIZES LARGE_ORDERS args w)
    as (r & e & evs & Hpath & Hrun).
  rewrite Hrun. cbn [fst snd after pyerr].
  destruct Hpath; cbn [is_snapshot]; rewrite ?Hclean;
    repeat split; try discriminate; try congruence; auto.
Qed.

Lemma psm_dump_null_iff_exception_example :
  fst (Node64.psm_call Node64.healthy 5) = PyNULL /\
  pyerr (snd (Node64.psm_call Node64.healthy 65281)) = None.
Proof.
  split.
  - apply (proj1 (psm_dump_null_iff_exception Node64.wbits Node64.WORD_SIZE
                    Node64.SMALL_SIZES Node64.LARGE_ORDERS
                    [PyLong 5; PyLong 1000000; PyStr "ionwm"]
                    (Node64.fresh Node64.healthy) eq_refl)).
    vm_compute. discriminate.
  - apply (proj2 (psm_dump_null_iff_exception Node64.wbits Node64.WORD_SIZE
                    Node64.SMALL_SIZES Node64.LARGE_ORDERS
                    [PyLong 65281; PyLong 1000000; PyStr "ionwm"]
                    (Node64.fresh Node64.healthy) eq_refl)).
    vm_compute. reflexivity.
Defined.

(** X8.  Each function keeps to its own side of ION and only ever adds to
    the call log: [pyion_sdr_dump] makes at most six calls, all to the SDR
    interface; [pyion_psm_dump] makes at most three, all to the IPC and
    partition interface, so it never begins a transaction and never
    releases anything. *)
Theorem readers_keep_to_their_collaborators
  (wbits WORD_SIZE : Z) (SMALL_SIZES LARGE_ORDERS : nat)
  (args : list PyObject) (w : World) :
  let sdr_dump := pyion_sdr_dump wbits WORD_SIZE SMALL_SIZES LARGE_ORDERS args in
  let psm_dump := pyion_psm_dump wbits WORD_SIZE SMALL_SIZES LARGE_ORDERS args in
  (log (snd (sdr_dump w)) = log w ++ events_of sdr_dump w /\
   forallb is_sdr_event (events_of sdr_dump w) = true /\
   (List.length (events_of sdr_dump w) <= 6)%nat) /\
  (log (snd (psm_dump w)) = log w ++ events_of psm_dump w /\
   forallb is_psm_event (events_of psm_dump w) = true /\
   (List.length (events_of psm_dump w) <= 3)%nat /\
   handles_held (events_of psm_dump w) = [] /\
   xn_bracketed false (events_of psm_dump w) = true).
Proof.
  cbv zeta. split.
  - destruct (sdr_dump_path wbits WORD_SIZE SMALL_SIZES LARGE_ORDERS args w)
      as (r & e & evs & Hpath & Hrun).
    rewrite (events_of_after _ _ _ _ _ Hrun), Hrun. cbn [snd after log].
    destruct Hpath; cbn; repeat split; lia.
  - destruct (psm_dump_path wbits WORD_SIZE SMALL_SIZES LARGE_ORDERS args w)
      as (r & e & evs & Hpath & Hrun).
    rewrite (events_of_after _ _ _ _ _ Hrun), Hrun. cbn [snd after log].
    destruct Hpath; cbn; repeat split; lia.
Qed.

(** ** The aggregate records *)

Lemma ulong_of_size_t (wbits z : Z) :
  is_size_t wbits z = true -> to_ulong wbits (to_size_t wbits z) = z.
Proof.
  intros H. unfold to_ulong, to_size_t.
  now rewrite !(is_size_t_wrap wbits z H).
Qed.

Lemma ulong_heap_used (wbits H SA LA HA : Z) :
  to_ulong wbits
    (size_sub wbits (to_size_t wbits H)
       (size_add wbits
          (size_add wbits (to_size_t wbits SA) (to_size_t wbits LA))
          (to_size_t wbits HA)))
  = (H - (SA + LA + HA)) mod 2 ^ wbits.
Proof.
  unfold to_ulong, size_sub, size_add, to_size_t, wrap.
  rewrite Zmod_mod, <- (Zplus_mod SA LA), <- Zplus_mod, <- Zminus_mod.
  reflexivity.
Qed.

Lemma ulong_max_heap_used (wbits H HA : Z) :
  to_ulong wbits (size_sub wbits (to_size_t wbits H) (to_size_t wbits HA))
  = (H - HA) mod 2 ^ wbits.
Proof.
  unfold to_ulong, size_sub, to_size_t, wrap.
  rewrite Zmod_mod, <- Zminus_mod. reflexivity.
Qed.

Lemma sdr_typed_scalars (wbits : Z) (N L : nat) (u : SdrUsageSummary) :
  sdr_usage_typed wbits N L u = true ->
  is_size_t wbits (sdr_smallPoolFree u) = true /\
  is_size_t wbits (sdr_smallPoolAllocated u) = true /\
  is_size_t wbits (sdr_smallPoolSize u) = true /\
  is_size_t wbits (sdr_largePoolFree u) = true /\
  is_size_t wbits (sdr_largePoolAllocated u) = true /\
  is_size_t wbits (sdr_largePoolSize u) = true /\
  is_size_t wbits (sdr_heapSize u) = true /\
  is_size_t wbits (sdr_unusedSize u) = true.
Proof.
  unfold sdr_usage_typed. rewrite !andb_true_iff. tauto.
Qed.

Lemma psm_typed_scalars (wbits : Z) (N L : nat) (u : PsmUsageSummary) :
  psm_usage_typed wbits N L u = true ->
  is_size_t wbits (psm_smallPoolFree u) = true /\
  is_size_t wbits (psm_smallPoolAllocated u) = true /\
  is_size_t wbits (psm_smallPoolSize u) = true /\
  is_size_t wbits (psm_largePoolFree u) = true /\
  is_size_t wbits (psm_largePoolAllocated u) = true /\
  is_size_t wbits (psm_largePoolSize u) = true /\
  is_size_t wbits (psm_partitionSize u) = true /\
  is_size_t wbits (psm_unusedSize u) = true.
Proof.
  unfold psm_usage_typed. rewrite !andb_true_iff. tauto.
Qed.

Lemma sdr_aggregate_typed (wbits : Z) (N L : nat) (u : SdrUsageSummary) :
  sdr_usage_typed wbits N L u = true ->
  sdr_aggregate wbits u
  = [("small_pool_avail"%string, sdr_smallPoolFree u);
     ("small_pool_used"%string, sdr_smallPoolAllocated u);
     ("small_pool_total"%string, sdr_smallPoolSize u);
     ("large_pool_avail"%string, sdr_largePoolFree u);
     ("large_pool_used"%string, sdr_largePoolAllocated u);
     ("large_pool_total"%string, sdr_largePoolSize u);
     ("heap_size"%string, sdr_heapSize u);
     ("heap_avail"%string, sdr_unusedSize u);
     ("heap_used"%string,
       (sdr_heapSize u
        - (sdr_smallPoolFree u + sdr_largePoolFree u + sdr_unusedSize u))
       mod 2 ^ wbits);
     ("max_heap_used"%string,
       (sdr_heapSize u - sdr_unusedSize u) mod 2 ^ wbits)].
Proof.
  intros Hty.
  apply sdr_typed_scalars in Hty as (T1 & T2 & T3 & T4 & T5 & T6 & T7 & T8).
  repeat match goal with
         | X : is_size_t wbits ?z = true |- _ =>
             apply (ulong_of_size_t wbits z) in X
         end.
  rewrite <- ulong_heap_used, <- ulong_max_heap_used.
  transitivity
    [("small_pool_avail"%string,
       to_ulong wbits (to_size_t wbits (sdr_smallPoolFree u)));
     ("small_pool_used"%string,
       to_ulong wbits (to_size_t wbits (sdr_smallPoolAllocated u)));
     ("small_pool_total"%string,
       to_ulong wbits (to_size_t wbits (sdr_smallPoolSize u)));
     ("large_pool_avail"%string,
       to_ulong wbits (to_size_t wbits (sdr_largePoolFree u)));
     ("large_pool_used"%string,
       to_ulong wbits (to_size_t wbits (sdr_largePoolAllocated u)));
     ("large_pool_total"%string,
       to_ulong wbits (to_size_t wbits (sdr_largePoolSize u)));
     ("heap_size"%string, to_ulong wbits (to_size_t wbits (sdr_heapSize u)));
     ("heap_avail"%string,
       to_ulong wbits (to_size_t wbits (sdr_unusedSize u)));
     ("heap_used"%string,
       to_ulong wbits
         (size_sub wbits (to_size_t wbits (sdr_heapSize u))
            (size_add wbits
               (size_add wbits (to_size_t wbits (sdr_smallPoolFree u))
                  (to_size_t wbits (sdr_largePoolFree u)))
               (to_size_t wbits (sdr_unusedSize u)))));
     ("max_heap_used"%string,
       to_ulong wbits
         (size_sub wbits (to_size_t wbits (sdr_heapSize u))
            (to_size_t wbits (sdr_unusedSize u))))].
  { reflexivity. }
  congruence.
Qed.

Lemma mod_sub_add_back (m a b : Z) :
  ((a - b) mod m + b mod m) mod m = a mod m.
Proof.
  rewrite <- Zplus_mod. f_equal. lia.
Qed.

Lemma mod_sub_add_back3 (m a b c d : Z) :
  ((a - (b + c + d)) mod m + b mod m + c mod m) mod m = (a - d) mod m.
Proof.
  rewrite Zplus_mod_idemp_r.
  replace ((a - (b + c + d)) mod m + b mod m + c)
    with ((a - (b + c + d)) mod m + c + b mod m) by lia.
  rewrite Zplus_mod_idemp_r, <- Z.add_assoc, Zplus_mod_idemp_l.
  f_equal. lia.
Qed.

Lemma psm_aggregate_typed (wbits : Z) (N L : nat) (u : PsmUsageSummary) :
  psm_usage_typed wbits N L u = true ->
  psm_aggregate wbits u
  = [("small_pool_avail"%string, psm_smallPoolFree u);
     ("small_pool_used"%string, psm_smallPoolAllocated u);
     ("small_pool_total"%string, psm_smallPoolSize u);
     ("large_pool_avail"%string, psm_largePoolFree u);
     ("large_pool_used"%string, psm_largePoolAllocated u);
     ("large_pool_total"%string, psm_largePoolSize u);
     ("wm_size"%string, psm_partitionSize u);
     ("wm_avail"%string, psm_unusedSize u)].
Proof.
  intros Hty.
  apply psm_typed_scalars in Hty as (T1 & T2 & T3 & T4 & T5 & T6 & T7 & T8).
  repeat match goal with
         | X : is_size_t wbits ?z = true |- _ =>
             apply (ulong_of_size_t wbits z) in X
         end.
  transitivity
    [("small_pool_avail"%string,
       to_ulong wbits (to_size_t wbits (psm_smallPoolFree u)));
     ("small_pool_used"%string,
       to_ulong wbits (to_size_t wbits (psm_smallPoolAllocated u)));
     ("small_pool_total"%string,
       to_ulong wbits (to_size_t wbits (psm_smallPoolSize u)));
     ("large_pool_avail"%string,
       to_ulong wbits (to_size_t wbits (psm_largePoolFree u)));
     ("large_pool_used"%string,
       to_ulong wbits (to_size_t wbits (psm_largePoolAllocated u)));
     ("large_pool_total"%string,
       to_ulong wbits (to_size_t wbits (psm_largePoolSize u)));
     ("wm_size"%string,
       to_ulong wbits (to_size_t wbits (psm_partitionSize u)));
     ("wm_avail"%string,
       to_ulong wbits (to_size_t wbits (psm_unusedSize u)))].
  { reflexivity. }
  congruence.
Qed.

(** X9.  For a summary typed as ION declares it, the record returned by
    [pyion_sdr_dump] consists of exactly ten fields in a fixed order: the
    six pool figures, the heap size and the unused size are the summary's
    fields unchanged, followed by the two derived heap figures. *)
Theorem sdr_dump_record_fields
  (wbits WORD_SIZE : Z) (SMALL_SIZES LARGE_ORDERS : nat)
  (args : list PyObject) (w w' : World) (name : string) (sdr : Sdr)
  (agg : PyDictS) (sp lp : PyDictZ) :
  parse_tuple_s args = inr name ->
  ion_sdr_start_using (ion w) name = Some sdr ->
  pyion_sdr_dump wbits WORD_SIZE SMALL_SIZES LARGE_ORDERS args w
    = (PyTuple3 agg sp lp, w') ->
  let u := ion_sdr_usage (ion w) sdr in
  sdr_usage_typed wbits SMALL_SIZES LARGE_ORDERS u = true ->
  agg
  = [("small_pool_avail"%string, sdr_smallPoolFree u);
     ("small_pool_used"%string, sdr_smallPoolAllocated u);
     ("small_pool_total"%string, sdr_smallPoolSize u);
     ("large_pool_avail"%string, sdr_largePoolFree u);
     ("large_pool_used"%string, sdr_largePoolAllocated u);
     ("large_pool_total"%string, sdr_largePoolSize u);
     ("heap_size"%string, sdr_heapSize u);
     ("heap_avail"%string, sdr_unusedSize u);
     ("heap_used"%string,
       (sdr_heapSize u
        - (sdr_smallPoolFree u + sdr_largePoolFree u + sdr_unusedSize u))
       mod 2 ^ wbits);
     ("max_heap_used"%string,
       (sdr_heapSize u - sdr_unusedSize u) mod 2 ^ wbits)].
Proof.
  intros Hparse Hattach Hrun u Hty.
  apply sdr_dump_snapshot in Hrun
    as (name' & sdr' & Hp & Ha & _ & _ & -> & _ & _ & _).
  same_inputs. now apply sdr_aggregate_typed with (N := SMALL_SIZES)
                                                  (L := LARGE_ORDERS).
Qed.

Lemma sdr_dump_record_fields_example :
  let r := Node64.sdr_call Node64.healthy "ion" in
  r = (PyTuple3 (ret_agg (fst r)) (ret_sp (fst r)) (ret_lp (fst r)), snd r) /\
  ret_agg (fst r)
  = [("small_pool_avail"%string, 50000); ("small_pool_used"%string, 30000);
     ("small_pool_total"%string, 80000); ("large_pool_avail"%string, 20000);
     ("large_pool_used"%string, 800000); ("large_pool_total"%string, 820000);
     ("heap_size"%string, 1000000); ("heap_avail"%string, 100000);
     ("heap_used"%string, 830000); ("max_heap_used"%string, 900000)].
Proof.
  intro r.
  assert (Hrun : r = (PyTuple3 (ret_agg (fst r)) (ret_sp (fst r))
                        (ret_lp (fst r)), snd r))
    by (vm_compute; reflexivity).
  split; [exact Hrun|].
  apply (sdr_dump_record_fields Node64.wbits Node64.WORD_SIZE
           Node64.SMALL_SIZES Node64.LARGE_ORDERS [PyStr "ion"]
           (Node64.fresh Node64.healthy) (snd r) "ion" 1%nat _ _ _
           eq_refl eq_refl Hrun).
  vm_compute. reflexivity.
Defined.

(** X10.  For a summary typed as ION declares it, the record returned by
    [pyion_psm_dump] consists of exactly eight fields in a fixed order,
    each holding the corresponding field of the summary unchanged; no
    figure is derived. *)
Theorem psm_dump_record_fields
  (wbits WORD_SIZE : Z) (SMALL_SIZES LARGE_ORDERS : nat)
  (args : list PyObject) (w w' : World)
  (memKey memSize : Z) (partitionName : string)
  (agg : PyDictS) (sp lp : PyDictZ) :
  parse_tuple_iLs args = inr (memKey, memSize, partitionName) ->
  pyion_psm_dump wbits WORD_SIZE SMALL_SIZES LARGE_ORDERS args w
    = (PyTuple3 agg sp lp, w') ->
  let u :=
    ion_psm_usage (ion w)
      (snd (ion_memmgr_open (ion w) memKey memSize partitionName)) in
  psm_usage_typed wbits SMALL_SIZES LARGE_ORDERS u = true ->
  agg
  = [("small_pool_avail"%string, psm_smallPoolFree u);
     ("small_pool_used"%string, psm_smallPoolAllocated u);
     ("small_pool_total"%string, psm_smallPoolSize u);
     ("large_pool_avail"%string, psm_largePoolFree u);
     ("large_pool_used"%string, psm_largePoolAllocated u);
     ("large_pool_total"%string, psm_largePoolSize u);
     ("wm_size"%string, psm_partitionSize u);
     ("wm_avail"%string, psm_unusedSize u)].
Proof.
  intros Hparse Hrun u Hty.
  apply psm_dump_snapshot in Hrun
    as (k & s & n & Hp & _ & _ & -> & _ & _ & _).
  same_inputs. now apply psm_aggregate_typed with (N := SMALL_SIZES)
                                                  (L := LARGE_ORDERS).
Qed.

Lemma psm_dump_record_fields_example :
  let r := Node64.psm_call Node64.healthy 65281 in
  r = (PyTuple3 (ret_agg (fst r)) (ret_sp (fst r)) (ret_lp (fst r)), snd r) /\
  ret_agg (fst r)
  = [("small_pool_avail"%string, 4096); ("small_pool_used"%string, 8192);
     ("small_pool_total"%string, 12288); ("large_pool_avail"%string, 65536);
     ("large_pool_used"%string, 131072); ("large_pool_total"%string, 196608);
     ("wm_size"%string, 1000000); ("wm_avail"%string, 791104)].
Proof.
  intro r.
  assert (Hrun : r = (PyTuple3 (ret_agg (fst r)) (ret_sp (fst r))
                        (ret_lp (fst r)), snd r))
    by (vm_compute; reflexivity).
  split; [exact Hrun|].
  apply (psm_dump_record_fields Node64.wbits Node64.WORD_SIZE
           Node64.SMALL_SIZES Node64.LARGE_ORDERS
           [PyLong 65281; PyLong 1000000; PyStr "ionwm"]
           (Node64.fresh Node64.healthy) (snd r) 65281 1000000 "ionwm"
           _ _ _ eq_refl Hrun).
  vm_compute. reflexivity.
Defined.

(** X11.  The figures of a record returned by [pyion_sdr_dump] are tied
    together, whatever the summary: modulo [2 ^ wbits],
    max_heap_used + heap_avail is heap_size and
    heap_used + small_pool_avail + large_pool_avail is max_heap_used. *)
Theorem sdr_dump_record_consistent
  (wbits WORD_SIZE : Z) (SMALL_SIZES LARGE_ORDERS : nat)
  (args : list PyObject) (w w' : World)
  (agg : PyDictS) (sp lp : PyDictZ) :
  pyion_sdr_dump wbits WORD_SIZE SMALL_SIZES LARGE_ORDERS args w
    = (PyTuple3 agg sp lp, w') ->
  exists size avail used max_used small_avail large_avail,
    PyDict_GetItemString agg "heap_size" = Some size /\
    PyDict_GetItemString agg "heap_avail" = Some avail /\
    PyDict_GetItemString agg "heap_used" = Some used /\
    PyDict_GetItemString agg "max_heap_used" = Some max_used /\
    PyDict_GetItemString agg "small_pool_avail" = Some small_avail /\
    PyDict_GetItemString agg "large_pool_avail" = Some large_avail /\
    (max_used + avail) mod 2 ^ wbits = size /\
    (used + small_avail + large_avail) mod 2 ^ wbits = max_used.
Proof.
  intros Hrun.
  apply sdr_dump_snapshot in Hrun
    as (name & sdr & _ & _ & _ & _ & -> & _ & _ & _).
  set (u := ion_sdr_usage (ion w) sdr).
  do 6 eexists.
  split; [reflexivity|]. split; [reflexivity|]. split; [reflexivity|].
  split; [reflexivity|]. split; [reflexivity|]. split; [reflexivity|].
  cbn [snd]. rewrite ulong_heap_used, ulong_max_heap_used.
  unfold to_ulong, to_size_t, wrap. rewrite !Zmod_mod.
  split; [apply mod_sub_add_back | apply mod_sub_add_back3].
Qed.

Lemma sdr_dump_record_consistent_example :
  let r := Node64.sdr_call Node64.healthy "ion" in
  exists size avail used max_used small_avail large_avail,
    PyDict_GetItemString (ret_agg (fst r)) "heap_size" = Some size /\
    PyDict_GetItemString (ret_agg (fst r)) "heap_avail" = Some avail /\
    PyDict_GetItemString (ret_agg (fst r)) "heap_used" = Some used /\
    PyDict_GetItemString (ret_agg (fst r)) "max_heap_used" = Some max_used /\
    PyDict_GetItemString (ret_agg (fst r)) "small_pool_avail"
      = Some small_avail /\
    PyDict_GetItemString (ret_agg (fst r)) "large_pool_avail"
      = Some large_avail /\
    (max_used + avail) mod 2 ^ 64 = size /\
    (used + small_avail + large_avail) mod 2 ^ 64 = max_used.
Proof.
  intro r.
  assert (Hrun : r = (PyTuple3 (ret_agg (fst r)) (ret_sp (fst r))
                        (ret_lp (fst r)), snd r))
    by (vm_compute; reflexivity).
  exact (sdr_dump_record_consistent Node64.wbits Node64.WORD_SIZE
           Node64.SMALL_SIZES Node64.LARGE_ORDERS [PyStr "ion"]
           (Node64.fresh Node64.healthy) (snd r) _ _ _ Hrun).
Defined.

(** X12.  For a summary typed as ION declares it, the reported
    max_heap_used stays within the reported heap_size exactly when the
    unused size does not exceed the heap size; otherwise the subtraction
    wraps and max_heap_used is [2 ^ wbits] minus the excess. *)
Theorem sdr_dump_max_used_within_heap_iff
  (wbits WORD_SIZE : Z) (SMALL_SIZES LARGE_ORDERS : nat)
  (args : list PyObject) (w w' : World) (name : string) (sdr : Sdr)
  (agg : PyDictS) (sp lp : PyDictZ) :
  parse_tuple_s args = inr name ->
  ion_sdr_start_using (ion w) name = Some sdr ->
  pyion_sdr_dump wbits WORD_SIZE SMALL_SIZES LARGE_ORDERS args w
    = (PyTuple3 agg sp lp, w') ->
  let u := ion_sdr_usage (ion w) sdr in
  sdr_usage_typed wbits SMALL_SIZES LARGE_ORDERS u = true ->
  exists max_used size,
    PyDict_GetItemString agg "max_heap_used" = Some max_used /\
    PyDict_GetItemString agg "heap_size" = Some size /\
    (max_used <= size <-> sdr_unusedSize u <= sdr_heapSize u) /\
    (sdr_heapSize u < sdr_unusedSize u ->
     max_used = 2 ^ wbits - (sdr_unusedSize u - sdr_heapSize u)).
Proof.
  intros Hparse Hattach Hrun u Hty.
  apply sdr_dump_snapshot in Hrun
    as (name' & sdr' & Hp & Ha & _ & _ & -> & _ & _ & _).
  same_inputs. fold u.
  rewrite (sdr_aggregate_typed wbits SMALL_SIZES LARGE_ORDERS u Hty).
  apply sdr_typed_scalars in Hty as (_ & _ & _ & _ & _ & _ & T7 & T8).
  apply is_size_t_range in T7. apply is_size_t_range in T8.
  do 2 eexists. split; [reflexivity|]. split; [reflexivity|].
  destruct (Z_le_gt_dec (sdr_unusedSize u) (sdr_heapSize u)) as [Hle|Hgt].
  - rewrite Z.mod_small by lia. split; [|lia]. split; lia.
  - assert (E : (sdr_heapSize u - sdr_unusedSize u) mod 2 ^ wbits
                = 2 ^ wbits - (sdr_unusedSize u - sdr_heapSize u)).
    { rewrite <- (Z_mod_plus_full _ 1). rewrite Z.mod_small; lia. }
    rewrite E. split; [|intros _; reflexivity]. split; lia.
Qed.

Lemma sdr_dump_max_used_within_heap_iff_example :
  let i := Node64.node (Node64.sdr_summary 1000 1200 0 0) true (-1) 0 in
  let r := Node64.sdr_call i "ion" in
  r = (PyTuple3 (ret_agg (fst r)) (ret_sp (fst r)) (ret_lp (fst r)), snd r) /\
  PyDict_GetItemString (ret_agg (fst r)) "max_heap_used" = Some (2 ^ 64 - 200).
Proof.
  intros i r.
  assert (Hrun : r = (PyTuple3 (ret_agg (fst r)) (ret_sp (fst r))
                        (ret_lp (fst r)), snd r))
    by (vm_compute; reflexivity).
  split; [exact Hrun|].
  destruct (sdr_dump_max_used_within_heap_iff Node64.wbits Node64.WORD_SIZE
              Node64.SMALL_SIZES Node64.LARGE_ORDERS [PyStr "ion"]
              (Node64.fresh i) (snd r) "ion" 1%nat _ _ _
              eq_refl eq_refl Hrun)
    as (max_used & size & Hm & _ & _ & Hwrap).
  { vm_compute. reflexivity. }
  rewrite Hm. f_equal. rewrite Hwrap; [reflexivity | cbn; lia].
Defined.

(** ** Range of the reported numbers *)

Lemma is_size_t_wrapped (wbits z : Z) :
  0 <= wbits -> is_size_t wbits (wrap wbits z) = true.
Proof.
  intros Hw. unfold is_size_t, wrap.
  assert (0 < 2 ^ wbits) by (apply Z.pow_pos_nonneg; lia).
  pose proof (Z.mod_pos_bound z (2 ^ wbits)).
  apply andb_true_iff. split; [apply Z.leb_le | apply Z.ltb_lt]; lia.
Qed.

Lemma set_item_in_range {K : Type} (eqb : K -> K -> bool) (wbits : Z)
  (key_ok : K -> bool) (d : list (K * Z)) (k : K) (v : Z) :
  dict_in_range wbits key_ok d = true ->
  key_ok k = true -> is_size_t wbits v = true ->
  dict_in_range wbits key_ok (Dict.set_item eqb d k v) = true.
Proof.
  unfold dict_in_range. intros Hd Hk Hv.
  induction d as [|[k' v'] d IH]; simpl in *.
  - now rewrite Hk, Hv.
  - apply andb_true_iff in Hd as [Hhead Htail].
    apply andb_true_iff in Hhead as [Hk' Hv'].
    destruct (eqb k' k); simpl.
    + now rewrite Hk', Hv, Htail.
    + now rewrite Hk', Hv', IH.
Qed.

Lemma for_loop_invariant {S : Type} (P : S -> Prop) (n : nat)
  (body : nat -> S -> S) (s : S) :
  P s -> (forall i st, (i < n)%nat -> P st -> P (body i st)) ->
  P (for_loop n body s).
Proof.
  intros Hs Hstep. induction n as [|n IH]; [exact Hs|].
  rewrite for_loop_S. apply Hstep; [lia|]. apply IH.
  intros i st Hi. apply Hstep. lia.
Qed.

Lemma small_histogram_in_range (wbits W : Z) (N : nat) (counts : list Z) :
  0 <= wbits ->
  dict_in_range wbits (is_size_t wbits) (small_histogram wbits W N counts)
  = true.
Proof.
  intros Hw. unfold small_histogram.
  apply (for_loop_invariant
           (fun st => dict_in_range wbits (is_size_t wbits) (snd st) = true)).
  - reflexivity.
  - intros i [s d] _ Hd. cbn [small_pool_step snd] in *.
    apply set_item_in_range; [assumption| |]; now apply is_size_t_wrapped.
Qed.

Lemma large_histogram_in_range (wbits W : Z) (L : nat) (counts : list Z) :
  0 <= wbits ->
  dict_in_range wbits (is_size_t wbits) (large_histogram wbits W L counts)
  = true.
Proof.
  intros Hw. unfold large_histogram.
  apply (for_loop_invariant
           (fun st => dict_in_range wbits (is_size_t wbits) (snd st) = true)).
  - reflexivity.
  - intros i [s d] _ Hd. cbn [large_pool_step snd] in *.
    apply set_item_in_range; [assumption| |]; now apply is_size_t_wrapped.
Qed.

(** X13.  Whatever ION hands back, every number in a returned snapshot is
    a valid [unsigned long]: each value of the aggregate record and each
    key and each value of the two histograms lies in [0, 2 ^ wbits). *)
Theorem snapshot_numbers_in_range
  (wbits WORD_SIZE : Z) (SMALL_SIZES LARGE_ORDERS : nat)
  (args : list PyObject) (w w' : World) (agg : PyDictS) (sp lp : PyDictZ) :
  0 <= wbits ->
  pyion_sdr_dump wbits WORD_SIZE SMALL_SIZES LARGE_ORDERS args w
    = (PyTuple3 agg sp lp, w') \/
  pyion_psm_dump wbits WORD_SIZE SMALL_SIZES LARGE_ORDERS args w
    = (PyTuple3 agg sp lp, w') ->
  dict_in_range wbits (fun _ => true) agg = true /\
  dict_in_range wbits (is_size_t wbits) sp = true /\
  dict_in_range wbits (is_size_t wbits) lp = true.
Proof.
  intros Hw [Hrun|Hrun].
  - apply sdr_dump_snapshot in Hrun
      as (? & ? & _ & _ & _ & _ & -> & -> & -> & _).
    split; [|split;
      [now apply small_histogram_in_range | now apply large_histogram_in_range]].
    unfold sdr_aggregate, Dict.build. cbn [fold_left fst snd].
    repeat (apply set_item_in_range;
            [ | reflexivity | now apply is_size_t_wrapped]).
    reflexivity.
  - apply psm_dump_snapshot in Hrun
      as (? & ? & ? & _ & _ & _ & -> & -> & -> & _).
    split; [|split;
      [now apply small_histogram_in_range | now apply large_histogram_in_range]].
    unfold psm_aggregate, Dict.build. cbn [fold_left fst snd].
    repeat (apply set_item_in_range;
            [ | reflexivity | now apply is_size_t_wrapped]).
    reflexivity.
Qed.

Lemma snapshot_numbers_in_range_example :
  let i := Node64.node (Node64.sdr_summary 1000 1200 500 400) true (-1) 0 in
  let r := Node64.sdr_call i "ion" in
  r = (PyTuple3 (ret_agg (fst r)) (ret_sp (fst r)) (ret_lp (fst r)), snd r) /\
  dict_in_range 64 (fun _ => true) (ret_agg (fst r)) = true /\
  dict_in_range 64 (is_size_t 64) (ret_sp (fst r)) = true /\
  dict_in_range 64 (is_size_t 64) (ret_lp (fst r)) = true.
Proof.
  intros i r.
  assert (Hrun : r = (PyTuple3 (ret_agg (fst r)) (ret_sp (fst r))
                        (ret_lp (fst r)), snd r))
    by (vm_compute; reflexivity).
  split; [exact Hrun|].
  apply (snapshot_numbers_in_range Node64.wbits Node64.WORD_SIZE
           Node64.SMALL_SIZES Node64.LARGE_ORDERS [PyStr "ion"]
           (Node64.fresh i) (snd r));
    [unfold Node64.wbits; lia | left; exact Hrun].
Defined.

(** ** The histograms when size classes collide *)

Lemma get_set_item (d : PyDictZ) (k v k' : Z) :
  PyDict_GetItem (PyDict_SetItem d k v) k'
  = if k =? k' then Some v else PyDict_GetItem d k'.
Proof.
  unfold PyDict_GetItem, PyDict_SetItem.
  induction d as [|[k0 v0] d IH]; simpl.
  - reflexivity.
  - destruct (k0 =? k) eqn:E0; simpl.
    + apply Z.eqb_eq in E0. subst k0.
      destruct (k =? k'); reflexivity.
    + destruct (k0 =? k') eqn:E1.
      * apply Z.eqb_eq in E1. subst k0.
        rewrite Z.eqb_sym, E0. reflexivity.
      * exact IH.
Qed.

Lemma keys_set_item_present (d : PyDictZ) (k v : Z) :
  In k (Dict.keys d) -> Dict.keys (PyDict_SetItem d k v) = Dict.keys d.
Proof.
  unfold PyDict_SetItem.
  induction d as [|[k0 v0] d IH]; simpl; [tauto|].
  intros Hin. destruct (k0 =? k) eqn:E; simpl; [reflexivity|].
  f_equal. apply IH. destruct Hin as [->|Hin]; [|exact Hin].
  rewrite Z.eqb_refl in E. discriminate.
Qed.

Lemma set_item_keeps_shape (d : PyDictZ) (k v : Z) :
  NoDup (Dict.keys d) ->
  NoDup (Dict.keys (PyDict_SetItem d k v)) /\
  (List.length (PyDict_SetItem d k v) <= S (List.length d))%nat.
Proof.
  intros Hnd.
  destruct (in_dec Z.eq_dec k (Dict.keys d)) as [Hin|Hout].
  - split.
    + now rewrite keys_set_item_present.
    + assert (E : List.length (Dict.keys (PyDict_SetItem d k v))
                  = List.length (Dict.keys d))
        by now rewrite keys_set_item_present.
      unfold Dict.keys in E. rewrite !length_map in E. lia.
  - unfold PyDict_SetItem.
    rewrite (set_item_fresh Z.eqb Z.eqb_eq) by assumption. split.
    + unfold Dict.keys in *. rewrite map_app. simpl.
      apply NoDup_app; [assumption | repeat constructor; auto | ].
      intros x Hx [<-|[]]. contradiction.
    + rewrite length_app. simpl. lia.
Qed.

Lemma last_index_S (n : nat) (key : nat -> Z) (k : Z) :
  last_index (S n) key k
  = if key n =? k then Some n else last_index n key k.
Proof.
  unfold last_index. rewrite seq_S, fold_left_app. reflexivity.
Qed.

Lemma histogram_wrapped_step (wbits : Z) (n : nat) (key : nat -> Z)
  (counts : list Z) (d : PyDictZ) :
  histogram_wrapped wbits n key counts d ->
  histogram_wrapped wbits (S n) key counts
    (PyDict_SetItem d (key n) (wrap wbits (nth n counts 0))).
Proof.
  intros (Hnd & Hlen & Hget).
  destruct (set_item_keeps_shape d (key n) (wrap wbits (nth n counts 0)) Hnd)
    as [Hnd' Hlen'].
  split; [exact Hnd'|]. split; [lia|].
  intros k. rewrite get_set_item, last_index_S.
  destruct (key n =? k); [reflexivity | apply Hget].
Qed.

Lemma small_loop_wrapped (wbits W : Z) (counts : list Z) (n : nat) :
  let st := for_loop n (small_pool_step wbits W counts)
              (to_size_t wbits 0, PyDict_New) in
  fst st = wrap wbits (W * Z.of_nat n) /\
  histogram_wrapped wbits n (small_key_wrapped wbits W) counts (snd st).
Proof.
  cbv zeta. induction n as [|n [IHs IHd]].
  - unfold for_loop. simpl. split.
    + unfold to_size_t. now rewrite Z.mul_0_r.
    + split; [apply NoDup_nil | split; [simpl; lia | intros k; reflexivity]].
  - rewrite for_loop_S.
    destruct (for_loop n (small_pool_step wbits W counts)
                (to_size_t wbits 0, PyDict_New)) as [s d].
    cbn [fst snd] in *. subst s. cbn [small_pool_step fst snd].
    assert (E : size_add wbits (wrap wbits (W * Z.of_nat n)) (to_size_t wbits W)
                = wrap wbits (W * Z.of_nat (S n))).
    { unfold size_add, to_size_t, wrap. rewrite <- Zplus_mod. f_equal. lia. }
    rewrite E. split; [reflexivity|].
    replace (to_ulong wbits (wrap wbits (W * Z.of_nat (S n))))
      with (small_key_wrapped wbits W n).
    + now apply histogram_wrapped_step.
    + unfold small_key_wrapped, to_ulong, wrap. rewrite Zmod_mod.
      f_equal. lia.
Qed.

Lemma large_loop_wrapped (wbits W : Z) (counts : list Z) (n : nat) :
  let st := for_loop n (large_pool_step wbits counts)
              (to_size_t wbits W, PyDict_New) in
  fst st = wrap wbits (W * 2 ^ Z.of_nat n) /\
  histogram_wrapped wbits n (large_key_wrapped wbits W) counts (snd st).
Proof.
  cbv zeta. induction n as [|n [IHs IHd]].
  - unfold for_loop. simpl. split.
    + unfold to_size_t. now rewrite Z.mul_1_r.
    + split; [apply NoDup_nil | split; [simpl; lia | intros k; reflexivity]].
  - rewrite for_loop_S.
    destruct (for_loop n (large_pool_step wbits counts)
                (to_size_t wbits W, PyDict_New)) as [s d].
    cbn [fst snd] in *. subst s. cbn [large_pool_step fst snd].
    assert (Hpow : 2 ^ Z.of_nat (S n) = 2 ^ Z.of_nat n * 2).
    { rewrite Nat2Z.inj_succ, Z.pow_succ_r by lia. lia. }
    assert (E : size_mul wbits (wrap wbits (W * 2 ^ Z.of_nat n)) 2
                = wrap wbits (W * 2 ^ Z.of_nat (S n))).
    { unfold size_mul, wrap. rewrite Zmult_mod_idemp_l. f_equal.
      rewrite Hpow. lia. }
    rewrite E. split; [reflexivity|].
    replace (to_ulong wbits (wrap wbits (W * 2 ^ Z.of_nat (S n))))
      with (large_key_wrapped wbits W n).
    + now apply histogram_wrapped_step.
    + unfold large_key_wrapped, to_ulong, wrap. rewrite Zmod_mod.
      f_equal. f_equal. f_equal. lia.
Qed.

(** X14.  Without any assumption on the build constants or on the
    summary, the histograms of a snapshot returned by either function
    have no repeated key and at most [SMALL_SIZES], respectively
    [LARGE_ORDERS], entries; the key of index [i] is
    [WORD_SIZE * (i + 1)], respectively [WORD_SIZE * 2 ^ (i + 1)], reduced
    modulo [2 ^ wbits], and when several indices share a key the counter
    of the last one is the value reported. *)
Theorem histograms_last_counter_wins
  (wbits WORD_SIZE : Z) (SMALL_SIZES LARGE_ORDERS : nat) (w : World) :
  (forall args w' name sdr agg sp lp,
     parse_tuple_s args = inr name ->
     ion_sdr_start_using (ion w) name = Some sdr ->
     pyion_sdr_dump wbits WORD_SIZE SMALL_SIZES LARGE_ORDERS args w
       = (PyTuple3 agg sp lp, w') ->
     let u := ion_sdr_usage (ion w) sdr in
     histogram_wrapped wbits SMALL_SIZES (small_key_wrapped wbits WORD_SIZE)
       (sdr_smallPoolFreeBlockCount u) sp /\
     histogram_wrapped wbits LARGE_ORDERS (large_key_wrapped wbits WORD_SIZE)
       (sdr_largePoolFreeBlockCount u) lp) /\
  (forall args w' memKey memSize partitionName agg sp lp,
     parse_tuple_iLs args = inr (memKey, memSize, partitionName) ->
     pyion_psm_dump wbits WORD_SIZE SMALL_SIZES LARGE_ORDERS args w
       = (PyTuple3 agg sp lp, w') ->
     let u :=
       ion_psm_usage (ion w)
         (snd (ion_memmgr_open (ion w) memKey memSize partitionName)) in
     histogram_wrapped wbits SMALL_SIZES (small_key_wrapped wbits WORD_SIZE)
       (psm_smallPoolFreeBlockCount u) sp /\
     histogram_wrapped wbits LARGE_ORDERS (large_key_wrapped wbits WORD_SIZE)
       (psm_largePoolFreeBlockCount u) lp).
Proof.
  split.
  - intros args w' name sdr agg sp lp Hparse Hattach Hrun u.
    apply sdr_dump_snapshot in Hrun
      as (name' & sdr' & Hp & Ha & _ & _ & _ & -> & -> & _).
    same_inputs. fold u. unfold small_histogram, large_histogram.
    split; [apply small_loop_wrapped | apply large_loop_wrapped].
  - intros args w' memKey memSize partitionName agg sp lp Hparse Hrun u.
    apply psm_dump_snapshot in Hrun
      as (k & s & n & Hp & _ & _ & _ & -> & -> & _).
    same_inputs. fold u. unfold small_histogram, large_histogram.
    split; [apply small_loop_wrapped | apply large_loop_wrapped].
Qed.

(** With 62 large orders on a 64-bit node the keys of the last two orders
    both wrap to 0: the histogram has 61 entries and key 0 holds the
    counter of order 61. *)
Lemma histograms_last_counter_wins_example :
  let u :=
    {| sdr_smallPoolFree := 0; sdr_smallPoolAllocated := 0;
       sdr_smallPoolSize := 0;
       sdr_smallPoolFreeBlockCount := repeat 0 64;
       sdr_largePoolFree := 0; sdr_largePoolAllocated := 0;
       sdr_largePoolSize := 0;
       sdr_largePoolFreeBlockCount := repeat 0 60 ++ [5; 9];
       sdr_heapSize := 0; sdr_unusedSize := 0 |} in
  let r :=
    pyion_sdr_dump 64 8 64 62 [PyStr "ion"]
      (Node64.fresh (Node64.node u true (-1) 0)) in
  r = (PyTuple3 (ret_agg (fst r)) (ret_sp (fst r)) (ret_lp (fst r)), snd r) /\
  List.length (ret_lp (fst r)) = 61%nat /\
  PyDict_GetItem (ret_lp (fst r)) 0 = Some 9.
Proof.
  intros u r.
  assert (Hrun : r = (PyTuple3 (ret_agg (fst r)) (ret_sp (fst r))
                        (ret_lp (fst r)), snd r))
    by (vm_compute; reflexivity).
  split; [exact Hrun|]. split; [vm_compute; reflexivity|].
  destruct (histograms_last_counter_wins 64 8 64 62
              (Node64.fresh (Node64.node u true (-1) 0))) as [Hsdr _].
  destruct (Hsdr [PyStr "ion"] (snd r) "ion"%string 1%nat _ _ _
              eq_refl eq_refl Hrun) as [_ (_ & _ & Hget)].
  rewrite Hget. vm_compute. reflexivity.
Defined.

(** ** The module *)

Lemma module_lookup (name : string) :
  PyModule_GetFunction PyInit__mem name
  = if String.eqb "sdr_dump" name then Some Fn_pyion_sdr_dump
    else if String.eqb "psm_dump" name then Some Fn_pyion_psm_dump
    else None.
Proof.
  unfold PyModule_GetFunction, PyInit__mem, PyModule_Create, moduledef.
  cbn [md_dict m_methods module_methods PyModule_AddFunctions ml_name ml_meth
       ml_flags ml_doc].
  change (Dict.set_item String.eqb
            (Dict.set_item String.eqb [] "sdr_dump"%string
               (Fn_pyion_sdr_dump, METH_VARARGS, Some sdr_dump_docstring))
            "psm_dump"%string
            (Fn_pyion_psm_dump, METH_VARARGS, Some psm_dump_docstring))
    with [("sdr_dump"%string,
           (Fn_pyion_sdr_dump, METH_VARARGS, Some sdr_dump_docstring));
          ("psm_dump"%string,
           (Fn_pyion_psm_dump, METH_VARARGS, Some psm_dump_docstring))].
  cbn [Dict.get_item].
  destruct (String.eqb "sdr_dump" name); [reflexivity|].
  destruct (String.eqb "psm_dump" name); reflexivity.
Qed.

(** X15.  The module created by [PyInit__mem] from [module_methods]
    exposes exactly two functions: the attribute [sdr_dump] is
    [pyion_sdr_dump], the attribute [psm_dump] is [pyion_psm_dump], and no
    other name resolves to a function; the sentinel row ends the table
    and neither row hides the other.  A call through the module is a call
    of the function its name stands for. *)
Theorem module_exposes_exactly_two_functions (name : string) :
  (PyModule_GetFunction PyInit__mem name = Some Fn_pyion_sdr_dump
   <-> name = "sdr_dump"%string) /\
  (PyModule_GetFunction PyInit__mem name = Some Fn_pyion_psm_dump
   <-> name = "psm_dump"%string) /\
  (PyModule_GetFunction PyInit__mem name = None
   <-> name <> "sdr_dump"%string /\ name <> "psm_dump"%string) /\
  Dict.keys (md_dict PyInit__mem) = ["sdr_dump"; "psm_dump"]%string /\
  (forall wbits WORD_SIZE SMALL_SIZES LARGE_ORDERS f args,
     PyModule_GetFunction PyInit__mem name = Some f ->
     PyCFunction_Call wbits WORD_SIZE SMALL_SIZES LARGE_ORDERS f args
     = if String.eqb name "sdr_dump"
       then pyion_sdr_dump wbits WORD_SIZE SMALL_SIZES LARGE_ORDERS args
       else pyion_psm_dump wbits WORD_SIZE SMALL_SIZES LARGE_ORDERS args).
Proof.
  rewrite module_lookup.
  split; [|split; [|split; [|split]]].
  - destruct (String.eqb_spec "sdr_dump" name) as [<-|Hs]; [tauto|].
    destruct (String.eqb_spec "psm_dump" name) as [<-|Hp];
      split; intros H; try discriminate; congruence.
  - destruct (String.eqb_spec "sdr_dump" name) as [<-|Hs].
    + split; intros H; discriminate.
    + destruct (String.eqb_spec "psm_dump" name) as [<-|Hp]; [tauto|].
      split; intros H; try discriminate; congruence.
  - destruct (String.eqb_spec "sdr_dump" name) as [<-|Hs].
    + split; [discriminate | intros [H _]; now contradiction H].
    + destruct (String.eqb_spec "psm_dump" name) as [<-|Hp].
      * split; [discriminate | intros [_ H]; now contradiction H].
      * split; [intros _; split; congruence | reflexivity].
  - reflexivity.
  - intros wbits W N L f args H.
    destruct (String.eqb_spec "sdr_dump" name) as [<-|Hs].
    + injection H as <-. reflexivity.
    + destruct (String.eqb_spec "psm_dump" name) as [<-|Hp];
        [|discriminate].
      injection H as <-. reflexivity.
Qed.
